(** * savant-logger: the operator front end

    A shallow embedding of the React components of the log analyzer
    (DeviceTable, CrashDetails, ProjectSelector, FileUploader and the Home
    page) together with the properties of the device view that the
    specification states about them.

    JavaScript values are modelled as follows.  A value of type
    [string | undefined] is an [option string]; a string of the program is a
    [string] of 8-bit characters.  [JS.toLowerCase] lower-cases the letters
    A-Z only, as the host does on ASCII text; where a property is about
    lower-casing itself, the host's function is a parameter.  What the
    packages behind [useDropzone] do to the files of an event is modelled
    after them, with their table of MIME types as a parameter.  JSX output
    is modelled by records and variants that keep exactly the text and the
    attributes the components compute. *)

From Stdlib Require Import String Ascii List ZArith Bool Lia Permutation.
From Stdlib Require Import Sorted DecimalString.
Import ListNotations.
Open Scope string_scope.

(** ** The JavaScript operations the components use *)

Module JS.

(** Truthiness of a string: every string but the empty one. *)
Definition nonempty (s : string) : bool :=
  match s with
  | EmptyString => false
  | String _ _ => true
  end.

(** Truthiness of a [string | undefined]. *)
Definition truthy (v : option string) : bool :=
  match v with
  | Some s => nonempty s
  | None => false
  end.

(** Truthiness of a [number | null]: [null] and [0] are falsy (the ids are
    integers, so [NaN] does not occur). *)
Definition truthyNumber (v : option Z) : bool :=
  match v with
  | Some n => negb (n =? 0)%Z
  | None => false
  end.

(** A template literal prints [undefined] by its name. *)
Definition interpolate (v : option string) : string :=
  match v with
  | Some s => s
  | None => "undefined"
  end.

(** [x && y] where [x : string | undefined] and [y : string]. *)
Definition and_then (x : option string) (y : string) : option string :=
  if truthy x then Some y else x.

(** [a === b] on [string | undefined]. *)
Definition strict_eq (a b : option string) : bool :=
  match a, b with
  | Some x, Some y => String.eqb x y
  | None, None => true
  | _, _ => false
  end.

Definition lower_char (c : ascii) : ascii :=
  let n := nat_of_ascii c in
  if (65 <=? n)%nat && (n <=? 90)%nat then ascii_of_nat (n + 32) else c.

Fixpoint toLowerCase (s : string) : string :=
  match s with
  | EmptyString => EmptyString
  | String c r => String (lower_char c) (toLowerCase r)
  end.

(** [hay.includes(needle)] *)
Fixpoint includes (hay needle : string) : bool :=
  String.prefix needle hay ||
  match hay with
  | EmptyString => false
  | String _ r => includes r needle
  end.

(** [s.startsWith(p)] *)
Definition startsWith (s p : string) : bool := String.prefix p s.

(** [s.endsWith(suffix)] *)
Definition endsWith (s suffix : string) : bool :=
  let n := String.length s in
  let k := String.length suffix in
  (k <=? n)%nat && String.eqb (String.substring (n - k) k s) suffix.

(** [l.slice(0, n)] *)
Definition slice0 {A : Type} (n : nat) (l : list A) : list A := firstn n l.

(** An integer inside a template literal: its decimal digits, with a minus
    sign when negative. *)
Definition numberToString (n : Z) : string :=
  NilZero.string_of_int (Z.to_int n).

End JS.

(** ** The data the device endpoint returns (interface DeviceData) *)

Record NetworkData := {
  ip : string;
  state : string;
  rssi : string;
  devicetype : string
}.

Record HealthData := {
  deviceName : string;
  reason : string;
  overallHealthRate : string
}.

(** [health_data] is read through [?.] everywhere, so it may be missing. *)
Record Snapshot := {
  network_data : NetworkData;
  health_data : option HealthData;
  capture_timestamp : string
}.

Module Crash.
Record t := { process : string; timestamp : string; content : string }.
End Crash.

Module Lighting.
Record t := { state : string; timestamp : string }.
End Lighting.

Record DeviceData := {
  id : Z;
  device_id : string;
  current : Snapshot;
  previous : option Snapshot;
  related_crashes : option (list Crash.t);
  lighting_history : option (list Lighting.t);
  system_stats : option string;
  wifi_data : option string
}.

Module Project.
Record t := { id : Z; name : string; created_at : string }.
End Project.

(** ** CrashDetails *)

Module CrashDetails.

(** One crash card: the two text lines and the markup that the "View
    Details" button assigns to [modal.innerHTML]. *)
Record Card := {
  processLine : string;
  timeLine : string;
  modalInnerHTML : string
}.

Definition card (crash : Crash.t) : Card :=
  {| processLine := Crash.process crash;
     timeLine := Crash.timestamp crash;
     modalInnerHTML := "<pre>" ++ Crash.content crash ++ "</pre>" |}.

(** [None] is the [null] returned for a missing or empty list. *)
Definition render (crashes : option (list Crash.t)) : option (list Card) :=
  match crashes with
  | None => None
  | Some [] => None
  | Some l => Some (map card l)
  end.

End CrashDetails.

(** ** DeviceTable *)

Module DeviceTable.

Inductive direction := asc | desc.

(** The component's [useState] cells. *)
Record State := {
  devices : list DeviceData;
  loading : bool;
  stateFilter : string;
  nameFilter : string;
  sortField : string;
  sortDirection : direction
}.

(** *** filteredDevices *)

Definition matchesState (st : State) (device : DeviceData) : bool :=
  negb (JS.nonempty (stateFilter st)) ||
  JS.includes (JS.toLowerCase (state (network_data (current device))))
              (JS.toLowerCase (stateFilter st)).

(** [None] is [undefined], the value of the optional chain when
    [health_data] is missing. *)
Definition matchesName (st : State) (device : DeviceData) : option bool :=
  if negb (JS.nonempty (nameFilter st)) then Some true
  else match health_data (current device) with
       | None => None
       | Some h => Some (JS.includes (JS.toLowerCase (deviceName h))
                                     (JS.toLowerCase (nameFilter st)))
       end.

(** [matchesState && matchesName], as [filter] reads it. *)
Definition keeps (st : State) (device : DeviceData) : bool :=
  if matchesState st device
  then match matchesName st device with
       | Some b => b
       | None => false
       end
  else false.

Definition filteredDevices (st : State) : list DeviceData :=
  filter (keeps st) (devices st).

(** The same filter with the host's [String.prototype.toLowerCase], which
    knows the letters of every script, as a parameter.  [filteredDevices]
    above is its instance at [JS.toLowerCase], which agrees with the host
    on strings of ASCII characters. *)
Section HostCase.

Variable toLowerCase : string -> string.

Definition matchesStateWith (st : State) (device : DeviceData) : bool :=
  negb (JS.nonempty (stateFilter st)) ||
  JS.includes (toLowerCase (state (network_data (current device))))
              (toLowerCase (stateFilter st)).

Definition matchesNameWith (st : State) (device : DeviceData) : option bool :=
  if negb (JS.nonempty (nameFilter st)) then Some true
  else match health_data (current device) with
       | None => None
       | Some h => Some (JS.includes (toLowerCase (deviceName h))
                                     (toLowerCase (nameFilter st)))
       end.

Definition keepsWith (st : State) (device : DeviceData) : bool :=
  if matchesStateWith st device
  then match matchesNameWith st device with
       | Some b => b
       | None => false
       end
  else false.

Definition filteredDevicesWith (st : State) : list DeviceData :=
  filter (keepsWith st) (devices st).

End HostCase.

(** *** getDiffStyle and renderDiffValue *)

Record Style := {
  backgroundColor : option string;
  position : option string
}.

Definition noStyle : Style :=
  {| backgroundColor := None; position := None |}.

Definition getDiffStyle (current previous : option string) : Style :=
  if negb (JS.truthy previous) || JS.strict_eq current previous then noStyle
  else {| backgroundColor :=
            Some (if JS.strict_eq current (Some "found")
                  then "bg-green-100" else "bg-red-100");
          position := Some "relative" |}.

(** What [renderDiffValue] returns: the bare string, or the element that
    shows the current value and, on hover, "Previous: " and the previous
    one. *)
Inductive Rendered :=
| Plain (text : string)
| WithPrevious (shown hover : string).

Definition renderDiffValue (current : string) (previous : option string)
  : Rendered :=
  if negb (JS.truthy previous) || JS.strict_eq (Some current) previous
  then Plain current
  else match previous with
       | Some p => WithPrevious current p
       | None => Plain current
       end.

(** *** handleSort and sortedDevices *)

Definition handleSort (field : string) (st : State) : State :=
  if String.eqb (sortField st) field
  then {| devices := devices st; loading := loading st;
          stateFilter := stateFilter st; nameFilter := nameFilter st;
          sortField := sortField st;
          sortDirection := match sortDirection st with
                           | asc => desc
                           | desc => asc
                           end |}
  else {| devices := devices st; loading := loading st;
          stateFilter := stateFilter st; nameFilter := nameFilter st;
          sortField := field;
          sortDirection := asc |}.

Definition sortKey (field : string) (device : DeviceData) : string :=
  if String.eqb field "state"
  then state (network_data (current device))
  else if String.eqb field "name"
  then match health_data (current device) with
       | Some h => deviceName h
       | None => ""
       end
  else "".

(** [Array.prototype.sort] is stable: an element goes in front of the
    first later element it does not compare greater than. *)
Fixpoint insertSorted (cmp : DeviceData -> DeviceData -> Z)
         (x : DeviceData) (l : list DeviceData) : list DeviceData :=
  match l with
  | [] => [x]
  | y :: r => if (cmp x y <=? 0)%Z then x :: y :: r
              else y :: insertSorted cmp x r
  end.

Definition sortBy (cmp : DeviceData -> DeviceData -> Z)
           (l : list DeviceData) : list DeviceData :=
  fold_right (insertSorted cmp) [] l.

(** *** The table body *)

(** A cell whose class and content come from the two diff helpers. *)
Record DiffCell := {
  className : string;
  body : Rendered
}.

Definition diffCell (styleCurrent stylePrevious : option string)
           (shownCurrent : string) (shownPrevious : option string)
  : DiffCell :=
  {| className :=
       "px-6 py-4 whitespace-nowrap text-sm " ++
       JS.interpolate (backgroundColor (getDiffStyle styleCurrent stylePrevious));
     body := renderDiffValue shownCurrent shownPrevious |}.

(** The "Recent History:" block of the status cell; [None] when the guard
    in front of it is falsy.  Each entry is shown as its timestamp (in the
    host's date format) and its state, in the order of the list. *)
Definition historyBlock (device : DeviceData) : option (list Lighting.t) :=
  match lighting_history device with
  | None => None
  | Some h =>
      if negb (String.eqb (state (network_data (current device))) "found")
      then Some (JS.slice0 5 h)
      else None
  end.

Record Row := {
  key : Z;
  nameCell : option string;
  stateCell : DiffCell;
  ipCell : string;
  rssiCell : DiffCell;
  healthCell : DiffCell;
  reasonText : option string;
  crashes : option (list CrashDetails.Card);
  history : option (list Lighting.t)
}.

Definition previousNetwork (f : NetworkData -> string) (device : DeviceData)
  : option string :=
  option_map (fun p => f (network_data p)) (previous device).

Definition healthRate (s : Snapshot) : option string :=
  option_map overallHealthRate (health_data s).

Definition previousHealthRate (device : DeviceData) : option string :=
  match previous device with
  | Some p => healthRate p
  | None => None
  end.

Definition renderRow (device : DeviceData) : Row :=
  let net := network_data (current device) in
  {| key := id device;
     nameCell := option_map deviceName (health_data (current device));
     stateCell :=
       diffCell (Some (state net)) (previousNetwork state device)
                (state net) (previousNetwork state device);
     ipCell := ip net;
     rssiCell :=
       diffCell (Some (rssi net)) (previousNetwork rssi device)
                (rssi net) (previousNetwork rssi device);
     healthCell :=
       diffCell (healthRate (current device)) (previousHealthRate device)
                (JS.interpolate (healthRate (current device)) ++ "%")
                (JS.and_then (previousHealthRate device)
                             (JS.interpolate (previousHealthRate device) ++ "%"));
     reasonText := option_map reason (health_data (current device));
     crashes := CrashDetails.render (related_crashes device);
     history := historyBlock device |}.

Inductive View :=
| LoadingView
| TableView (rows : list Row).

Section Sorting.

(** [String.prototype.localeCompare] depends on the host's locale; it is a
    parameter of the table. *)
Variable localeCompare : string -> string -> Z.

Definition compareDevices (st : State) (a b : DeviceData) : Z :=
  let aValue := sortKey (sortField st) a in
  let bValue := sortKey (sortField st) b in
  match sortDirection st with
  | asc => localeCompare aValue bValue
  | desc => localeCompare bValue aValue
  end.

Definition sortedDevices (st : State) : list DeviceData :=
  sortBy (compareDevices st) (filteredDevices st).

Definition render (st : State) : View :=
  if loading st then LoadingView
  else TableView (map renderRow (sortedDevices st)).

End Sorting.

(** *** The life of the component: mount, fetch, typing, header clicks *)

Definition initial : State :=
  {| devices := []; loading := true; stateFilter := ""; nameFilter := "";
     sortField := "state"; sortDirection := asc |}.

(** The address the fetch effect requests. *)
Definition devicesUrl (projectId : Z) (captureId : option Z) : string :=
  "http://localhost:8000/project/" ++ JS.numberToString projectId ++
  "/devices" ++
  match captureId with
  | Some c => if JS.truthyNumber captureId
              then "?capture_id=" ++ JS.numberToString c else ""
  | None => ""
  end.

(** The two headers with an [onClick]. *)
Inductive Column := NameColumn | StateColumn.

Definition columnField (c : Column) : string :=
  match c with
  | NameColumn => "name"
  | StateColumn => "state"
  end.

Inductive Event :=
| Fetched (data : list DeviceData)
| FetchFailed
| StateFilterTyped (text : string)
| NameFilterTyped (text : string)
| HeaderClicked (c : Column).

Definition step (st : State) (e : Event) : State :=
  match e with
  | Fetched data =>
      {| devices := data; loading := false;
         stateFilter := stateFilter st; nameFilter := nameFilter st;
         sortField := sortField st; sortDirection := sortDirection st |}
  | FetchFailed =>
      {| devices := devices st; loading := false;
         stateFilter := stateFilter st; nameFilter := nameFilter st;
         sortField := sortField st; sortDirection := sortDirection st |}
  | StateFilterTyped text =>
      {| devices := devices st; loading := loading st;
         stateFilter := text; nameFilter := nameFilter st;
         sortField := sortField st; sortDirection := sortDirection st |}
  | NameFilterTyped text =>
      {| devices := devices st; loading := loading st;
         stateFilter := stateFilter st; nameFilter := text;
         sortField := sortField st; sortDirection := sortDirection st |}
  | HeaderClicked c => handleSort (columnField c) st
  end.

Definition run (events : list Event) (st : State) : State :=
  fold_left step events st.

(** The icon next to a header's title. *)
Inductive Indicator := NoIndicator | ChevronUp | ChevronDown.

Definition sortIndicator (c : Column) (st : State) : Indicator :=
  if String.eqb (sortField st) (columnField c)
  then match sortDirection st with
       | asc => ChevronUp
       | desc => ChevronDown
       end
  else NoIndicator.

End DeviceTable.

(** ** The Home page and its ProjectSelector *)

Module Home.

(** The page's [useState] cells. *)
Record State := {
  selectedProject : option Z;
  selectedCapture : option Z;
  refreshTrigger : Z
}.

Definition initial : State :=
  {| selectedProject := None; selectedCapture := None; refreshTrigger := 0 |}.

Definition setSelectedProject (p : option Z) (st : State) : State :=
  {| selectedProject := p;
     selectedCapture := selectedCapture st;
     refreshTrigger := refreshTrigger st |}.

Definition setSelectedCapture (c : option Z) (st : State) : State :=
  {| selectedProject := selectedProject st;
     selectedCapture := c;
     refreshTrigger := refreshTrigger st |}.

Definition setRefreshTrigger (f : Z -> Z) (st : State) : State :=
  {| selectedProject := selectedProject st;
     selectedCapture := selectedCapture st;
     refreshTrigger := f (refreshTrigger st) |}.

Definition handleUploadSuccess (projectId : Z) (projectName : string)
           (st : State) : State :=
  setSelectedCapture None
    (setSelectedProject (Some projectId)
       (setRefreshTrigger (fun prev => prev + 1)%Z st)).

(** The options of the [select]: the placeholder, whose value is the empty
    string, and one option per project, whose value is the project's id. *)
Inductive SelectOption :=
| Placeholder
| ProjectOption (projectId : Z).

(** [e.target.value ? parseInt(e.target.value) : null] *)
Definition chosenProjectId (o : SelectOption) : option Z :=
  match o with
  | Placeholder => None
  | ProjectOption n => Some n
  end.

(** The [onChange] handler of the selector, with the page's two setters as
    its callbacks. *)
Definition onChange (o : SelectOption) (st : State) : State :=
  setSelectedCapture None (setSelectedProject (chosenProjectId o) st).

(** The selector's auto-select effect. *)
Definition autoSelect (st : State) : State :=
  if JS.truthyNumber (selectedProject st)
  then setSelectedProject (selectedProject st) st
  else st.

(** Everything that can happen to the page. *)
Inductive Event :=
| Change (o : SelectOption)
| UploadSuccess (projectId : Z) (projectName : string)
| AutoSelect.

Definition step (st : State) (e : Event) : State :=
  match e with
  | Change o => onChange o st
  | UploadSuccess p n => handleUploadSuccess p n st
  | AutoSelect => autoSelect st
  end.

Definition run (events : list Event) (st : State) : State :=
  fold_left step events st.

(** The request of the device table, when the page mounts one: the project
    of the path and the [capture_id] parameter, if any. *)
Record Query := {
  queryProject : Z;
  queryCapture : option Z
}.

Definition deviceQuery (st : State) : option Query :=
  match selectedProject st with
  | Some p =>
      if JS.truthyNumber (Some p)
      then Some {| queryProject := p;
                   queryCapture := if JS.truthyNumber (selectedCapture st)
                                   then selectedCapture st else None |}
      else None
  | None => None
  end.

End Home.

(** ** ProjectSelector *)

Module ProjectSelector.

Record State := {
  projects : list Project.t;
  loading : bool
}.

Definition initial : State := {| projects := []; loading := true |}.

(** The two ways the fetch of the project list ends. *)
Inductive Event :=
| Fetched (data : list Project.t)
| FetchFailed.

Definition step (st : State) (e : Event) : State :=
  match e with
  | Fetched data => {| projects := data; loading := false |}
  | FetchFailed => {| projects := projects st; loading := false |}
  end.

Definition run (events : list Event) (st : State) : State :=
  fold_left step events st.

(** The [select]: its value ([None] is the empty string of the
    placeholder) and, after the placeholder, one option per project. *)
Inductive View :=
| LoadingView
| SelectView (value : option Z) (options : list (Z * string)).

Definition render (selectedProjectId : option Z) (st : State) : View :=
  if loading st then LoadingView
  else SelectView
         (if JS.truthyNumber selectedProjectId then selectedProjectId else None)
         (map (fun project => (Project.id project, Project.name project))
              (projects st)).

End ProjectSelector.

(** ** FileUploader *)

Module FileUploader.

(** The two attributes of a [File] that the drop zone reads. *)
Record File := {
  name : string;
  type : string
}.

(** The [accept] option handed to [useDropzone]. *)
Definition accept : list (string * list string) :=
  [("application/gzip", [".tgz"])].

(** [useDropzone] comes from the react-dropzone package.  Its filter is
    modelled after the package: the [accept] map is flattened to the list
    of its MIME types and extensions, and a file passes when one entry of
    that list matches it: an extension against the end of the lower-cased
    file name, a [type/*] pattern against the part of the lower-cased MIME
    type before the slash, any other entry against the whole lower-cased
    MIME type.  A file whose type is Firefox's [application/x-moz-file]
    always passes. *)
Definition acceptAttr (a : list (string * list string)) : list string :=
  flat_map (fun entry => fst entry :: snd entry) a.

Fixpoint beforeSlash (s : string) : string :=
  match s with
  | EmptyString => EmptyString
  | String c r => if Ascii.eqb c "/" then EmptyString
                  else String c (beforeSlash r)
  end.

Definition matchesEntry (file : File) (entry : string) : bool :=
  let validType := JS.toLowerCase entry in
  let mimeType := JS.toLowerCase (type file) in
  if JS.startsWith validType "."
  then JS.endsWith (JS.toLowerCase (name file)) validType
  else if JS.endsWith validType "/*"
  then String.eqb (beforeSlash mimeType) (beforeSlash validType)
  else String.eqb mimeType validType.

Definition fileAccepted (file : File) : bool :=
  String.eqb (type file) "application/x-moz-file" ||
  existsb (matchesEntry file) (acceptAttr accept).

(** [onDrop]: the file posted to the upload endpoint, if any. *)
Definition onDrop (accepted : list File) : option File :=
  match accepted with
  | [] => None
  | file :: _ => Some file
  end.

(** Before it filters, the drop zone reads the files of the event through
    the file-selector package.  A file without a declared type whose name
    has a dot gets the MIME type that the package's table gives for the
    lower-cased text after the last dot, if the table has one; and the
    files of a drop, but not those chosen in the file picker, lose the
    entries named [.DS_Store] and [Thumbs.db]. *)
Inductive Origin := Dropped | Picked.

Definition ignored (file : File) : bool :=
  String.eqb (name file) ".DS_Store" || String.eqb (name file) "Thumbs.db".

Definition hasExtension (fileName : string) : bool :=
  JS.nonempty fileName && JS.includes fileName ".".

(** [fileName.split('.').pop()] *)
Fixpoint lastSegment (fileName : string) : string :=
  match fileName with
  | EmptyString => EmptyString
  | String c r => if JS.includes r "." then lastSegment r
                  else if Ascii.eqb c "." then r
                  else String c r
  end.

Section MimeTable.

(** The package's table of MIME types by extension is a parameter. *)
Variable mimeOf : string -> option string.

Definition withMimeType (file : File) : File :=
  if hasExtension (name file) && negb (JS.nonempty (type file))
  then match mimeOf (JS.toLowerCase (lastSegment (name file))) with
       | Some t => if JS.nonempty t
                   then {| name := name file; type := t |}
                   else file
       | None => file
       end
  else file.

Definition selectedFiles (origin : Origin) (files : list File) : list File :=
  match origin with
  | Dropped => filter (fun file => negb (ignored file)) (map withMimeType files)
  | Picked => map withMimeType files
  end.

Definition acceptedFiles (origin : Origin) (files : list File) : list File :=
  filter fileAccepted (selectedFiles origin files).

(** The file posted for the files of one event. *)
Definition submitted (origin : Origin) (files : list File) : option File :=
  onDrop (acceptedFiles origin files).

End MimeTable.

(** *** The rest of [onDrop]: what follows the two requests *)

(** The outcome of the POST: the request fails, the status is not ok, the
    body is not JSON, the body is [null], or the body is another JSON
    value, whose [project_name] is a string or is missing (a
    [project_name] that is not a string equals no project name and counts
    as missing). *)
Inductive UploadReply :=
| UploadFailed
| UploadNotOk
| UploadMalformed
| UploadNull
| UploadResult (project_name : option string).

(** The outcome of the GET of the project list: the request fails or its
    body is no list, or the body is a list of projects as the interface
    [Project] of the selector, which reads the same address, declares
    them. *)
Inductive ProjectsReply :=
| ProjectsFailed
| ProjectsList (projects : list Project.t).

(** What [onDrop] does to the outside, in order ([console.error] is left
    out). *)
Inductive Effect :=
| SetUploading (b : bool)
| PostUpload (file : File)
| GetProjects
| OnUploadSuccess (projectId : Z) (projectName : string)
| Alert (message : string).

Definition findProject (project_name : option string)
           (projects : list Project.t) : option Project.t :=
  find (fun p => JS.strict_eq (Some (Project.name p)) project_name) projects.

Definition afterUpload (upload : UploadReply) (listing : ProjectsReply)
  : list Effect :=
  match upload with
  | UploadResult project_name =>
      GetProjects ::
      match listing with
      | ProjectsList projects =>
          match findProject project_name projects with
          | Some p => [OnUploadSuccess (Project.id p) (Project.name p)]
          | None => []
          end
      | ProjectsFailed => [Alert "Error uploading file"]
      end
  | UploadNull =>
      (* [result.project_name] throws at the first project that [find]
         visits *)
      GetProjects ::
      match listing with
      | ProjectsList [] => []
      | ProjectsList (_ :: _) => [Alert "Error uploading file"]
      | ProjectsFailed => [Alert "Error uploading file"]
      end
  | UploadFailed | UploadNotOk | UploadMalformed =>
      [Alert "Error uploading file"]
  end.

Definition onDropEffects (accepted : list File) (upload : UploadReply)
           (listing : ProjectsReply) : list Effect :=
  match accepted with
  | [] => []
  | file :: _ =>
      SetUploading true :: PostUpload file ::
      afterUpload upload listing ++ [SetUploading false]
  end.

End FileUploader.

(** ** The page as a whole: the uploader's callback wired to the page *)

Module Page.

Definition applyEffect (st : Home.State) (e : FileUploader.Effect)
  : Home.State :=
  match e with
  | FileUploader.OnUploadSuccess projectId projectName =>
      Home.handleUploadSuccess projectId projectName st
  | _ => st
  end.

(** The page after the files of one event, given how the two requests
    end. *)
Definition afterDrop (mimeOf : string -> option string)
           (origin : FileUploader.Origin)
           (files : list FileUploader.File)
           (upload : FileUploader.UploadReply)
           (listing : FileUploader.ProjectsReply)
           (st : Home.State) : Home.State :=
  fold_left applyEffect
            (FileUploader.onDropEffects
               (FileUploader.acceptedFiles mimeOf origin files)
               upload listing)
            st.

(** The address of the request the mounted device table makes when its
    fetch effect runs, if a table is mounted. *)
Definition requestedUrl (st : Home.State) : option string :=
  option_map (fun q => DeviceTable.devicesUrl (Home.queryProject q)
                                              (Home.queryCapture q))
             (Home.deviceQuery st).

(** The props of the device table, when the page mounts one. *)
Definition tableProps (st : Home.State) : option (Z * option Z) :=
  match Home.selectedProject st with
  | Some p => if JS.truthyNumber (Some p)
              then Some (p, Home.selectedCapture st)
              else None
  | None => None
  end.

Definition sameCapture (a b : option Z) : bool :=
  match a, b with
  | Some x, Some y => (x =? y)%Z
  | None, None => true
  | _, _ => false
  end.

Definition sameProps (a b : option (Z * option Z)) : bool :=
  match a, b with
  | Some (p, c), Some (q, d) => (p =? q)%Z && sameCapture c d
  | None, None => true
  | _, _ => false
  end.

(** The request that a change of the page from [before] to [after] sets
    off: the fetch effect of the table runs when the table is mounted and
    when one of its two props changes, and at no other time. *)
Definition requestAfter (before after : Home.State) : option string :=
  match tableProps after with
  | Some (p, c) =>
      if sameProps (tableProps before) (Some (p, c)) then None
      else Some (DeviceTable.devicesUrl p c)
  | None => None
  end.

End Page.

(** ** The specification's vocabulary, for comparison with the code *)

Module Spec.

(** The four classes of a field-level diff, as the specification words
    them: equal values (both absent included) are [unchanged], an absent
    previous with a present current is [appeared], a present previous
    with an absent current is [disappeared], the rest is [changed]. *)
Inductive DiffClass := unchanged | changed | appeared | disappeared.

Definition classify (current previous : option string) : DiffClass :=
  match previous, current with
  | None, None => unchanged
  | None, Some _ => appeared
  | Some _, None => disappeared
  | Some p, Some c => if String.eqb c p then unchanged else changed
  end.

(** "[state] transitions away from found": the previous snapshot was
    found and the current one is not. *)
Definition leftFound (device : DeviceData) : bool :=
  match previous device with
  | Some p =>
      String.eqb (state (network_data p)) "found" &&
      negb (String.eqb (state (network_data (current device))) "found")
  | None => false
  end.

(** The last [n] entries of a sequence. *)
Definition lastN {A : Type} (n : nat) (l : list A) : list A :=
  skipn (List.length l - n) l.

(** A numeric percentage: a non-empty string of decimal digits and dots. *)
Definition isDigitOrDot (c : ascii) : bool :=
  let n := nat_of_ascii c in
  ((48 <=? n)%nat && (n <=? 57)%nat) || (n =? 46)%nat.

Fixpoint allDigitsOrDots (s : string) : bool :=
  match s with
  | EmptyString => true
  | String c r => isDigitOrDot c && allDigitsOrDots r
  end.

Definition isNumeric (s : string) : bool :=
  JS.nonempty s && allDigitsOrDots s.

(** A declared gzip-compressed tar container: type [application/gzip]
    and a [.tgz] name. *)
Definition declaredTgz (file : FileUploader.File) : bool :=
  String.eqb (FileUploader.type file) "application/gzip" &&
  JS.endsWith (FileUploader.name file) ".tgz".

End Spec.

(** ** Sample data *)

Module Sample.

Definition net (s r : string) : NetworkData :=
  {| ip := "10.0.0.7"; state := s; rssi := r; devicetype := "dimmer" |}.

Definition health (rate : string) : HealthData :=
  {| deviceName := "Hall"; reason := "ok"; overallHealthRate := rate |}.

Definition snap (n : NetworkData) (h : option HealthData) (ts : string)
  : Snapshot :=
  {| network_data := n; health_data := h; capture_timestamp := ts |}.

Definition dev (cur : Snapshot) (prev : option Snapshot)
           (hist : option (list Lighting.t)) : DeviceData :=
  {| id := 1; device_id := "dev-1"; current := cur; previous := prev;
     related_crashes := None; lighting_history := hist;
     system_stats := None; wifi_data := None |}.

Definition entry (s ts : string) : Lighting.t :=
  {| Lighting.state := s; Lighting.timestamp := ts |}.

(** Six events, oldest first. *)
Definition sixEvents : list Lighting.t :=
  [entry "on" "2024-01-01T00:00:01"; entry "off" "2024-01-01T00:00:02";
   entry "on" "2024-01-01T00:00:03"; entry "off" "2024-01-01T00:00:04";
   entry "on" "2024-01-01T00:00:05"; entry "off" "2024-01-01T00:00:06"].

(** The scenario of the specification: found, -40 in the first capture;
    missing, -70 in the second. *)
Definition c1 : Snapshot := snap (net "found" "-40") (Some (health "97")) "t1".
Definition c2 : Snapshot := snap (net "missing" "-70") (Some (health "80")) "t2".
Definition scenario : DeviceData := dev c2 (Some c1) (Some sixEvents).

(** A device seen for the first time, and the same device with a previous
    snapshot equal to the current one. *)
Definition firstSeen : DeviceData := dev c1 None None.
Definition steady : DeviceData := dev c1 (Some c1) None.

(** A device that was never found. *)
Definition neverFound : DeviceData :=
  dev (snap (net "missing" "-70") None "t1") None
      (Some [entry "off" "2024-01-01T00:00:01"]).

(** A device whose previous snapshot carries an empty state, and two
    devices that differ in the previous address only. *)
Definition emptyBefore : DeviceData :=
  dev c1 (Some (snap (net "" "-40") (Some (health "97")) "t0")) None.

Definition movedFrom (address : string) : DeviceData :=
  dev c1 (Some (snap {| ip := address; state := "found"; rssi := "-40";
                        devicetype := "dimmer" |}
                     (Some (health "97")) "t0")) None.

(** A health rate that is not a number. *)
Definition rawRate : DeviceData :=
  dev (snap (net "found" "-40") (Some (health "N/A")) "t1") None None.

Definition markupCrash : Crash.t :=
  {| Crash.process := "lightd"; Crash.timestamp := "t1";
     Crash.content := "a <b>c</b> &amp; d" |}.

Definition table (sf nf : string) (l : list DeviceData) : DeviceTable.State :=
  {| DeviceTable.devices := l; DeviceTable.loading := false;
     DeviceTable.stateFilter := sf; DeviceTable.nameFilter := nf;
     DeviceTable.sortField := "state";
     DeviceTable.sortDirection := DeviceTable.asc |}.

Definition renamedTgz : FileUploader.File :=
  {| FileUploader.name := "notes.tgz"; FileUploader.type := "text/plain" |}.

Definition gzipTarGz : FileUploader.File :=
  {| FileUploader.name := "capture.tar.gz";
     FileUploader.type := "application/gzip" |}.

(** Two tables that show the scenario's device among different devices,
    under different filters and sort orders, and a second device with the
    same tracked values. *)
Definition twin : DeviceData :=
  {| id := 2; device_id := "dev-2"; current := c2; previous := Some c1;
     related_crashes := Some [markupCrash]; lighting_history := None;
     system_stats := Some "load 0.3"; wifi_data := None |}.

Definition tableA : DeviceTable.State := table "" "" [firstSeen; scenario].

Definition tableB : DeviceTable.State :=
  {| DeviceTable.devices := [twin; steady]; DeviceTable.loading := false;
     DeviceTable.stateFilter := "MISS"; DeviceTable.nameFilter := "hall";
     DeviceTable.sortField := "name";
     DeviceTable.sortDirection := DeviceTable.desc |}.

Definition byLength (a b : string) : Z :=
  Z.of_nat (String.length a) - Z.of_nat (String.length b).

Definition plainText : FileUploader.File :=
  {| FileUploader.name := "notes.txt"; FileUploader.type := "text/plain" |}.

(** The same table under two spellings of the same filters. *)
Definition shouting : DeviceTable.State := table "MISSING" "HALL" [twin; steady].
Definition whispering : DeviceTable.State := table "missing" "hall" [twin; steady].

Definition untypedGz : FileUploader.File :=
  {| FileUploader.name := "notes.gz"; FileUploader.type := "" |}.

Definition thumbs : FileUploader.File :=
  {| FileUploader.name := "Thumbs.db";
     FileUploader.type := "application/gzip" |}.

(** A table of MIME types that knows two extensions. *)
Definition mimeTable (extension : string) : option string :=
  if String.eqb extension "gz" then Some "application/gzip"
  else if String.eqb extension "txt" then Some "text/plain"
  else None.

Definition noTable (extension : string) : option string := None.

Definition shoutingTgz : FileUploader.File :=
  {| FileUploader.name := "CAPTURE.TGZ"; FileUploader.type := "" |}.

Definition siteA : Project.t :=
  {| Project.id := 7; Project.name := "site-a"; Project.created_at := "d1" |}.

Definition siteB : Project.t :=
  {| Project.id := 9; Project.name := "site-b"; Project.created_at := "d2" |}.

(** A later project that reuses the name of [siteB]. *)
Definition siteB' : Project.t :=
  {| Project.id := 11; Project.name := "site-b"; Project.created_at := "d3" |}.

End Sample.

(** Record update of [previous]. *)
Definition withPrevious (p : option Snapshot) (d : DeviceData) : DeviceData :=
  {| id := id d; device_id := device_id d; current := current d;
     previous := p; related_crashes := related_crashes d;
     lighting_history := lighting_history d;
     system_stats := system_stats d; wifi_data := wifi_data d |}.

(** The class of a highlighted cell. *)
Definition cellClass (current : string) : string :=
  "px-6 py-4 whitespace-nowrap text-sm " ++
  (if String.eqb current "found" then "bg-green-100" else "bg-red-100").

(** The two renderings of a diffed cell: plain, and highlighted with the
    previous value on hover; the colour goes by the current value. *)
Definition plainCell (text : string) : DeviceTable.DiffCell :=
  {| DeviceTable.className := "px-6 py-4 whitespace-nowrap text-sm undefined";
     DeviceTable.body := DeviceTable.Plain text |}.

Definition highlightedCell (current shown hover : string)
  : DeviceTable.DiffCell :=
  {| DeviceTable.className := cellClass current;
     DeviceTable.body := DeviceTable.WithPrevious shown hover |}.

(** The text a cell shows without hovering. *)
Definition shownText (r : DeviceTable.Rendered) : string :=
  match r with
  | DeviceTable.Plain t => t
  | DeviceTable.WithPrevious t _ => t
  end.

(** What the diff helpers read of a device, and what they contribute to
    its row. *)
Definition diffInputs (d : DeviceData)
  : (string * option string) * (string * option string) *
    (option string * option string) :=
  ((state (network_data (current d)), DeviceTable.previousNetwork state d),
   (rssi (network_data (current d)), DeviceTable.previousNetwork rssi d),
   (DeviceTable.healthRate (current d), DeviceTable.previousHealthRate d)).

Definition diffOutputs (r : DeviceTable.Row)
  : DeviceTable.DiffCell * DeviceTable.DiffCell * DeviceTable.DiffCell :=
  (DeviceTable.stateCell r, DeviceTable.rssiCell r, DeviceTable.healthCell r).

Definition rowsOf (v : DeviceTable.View) : list DeviceTable.Row :=
  match v with
  | DeviceTable.LoadingView => []
  | DeviceTable.TableView rows => rows
  end.

(** The devices whose sort key is [k]. *)
Definition hasKey (field k : string) (d : DeviceData) : bool :=
  String.eqb (DeviceTable.sortKey field d) k.

(** The order a sorted table is in: along the list, keys never go down
    (ascending) or up (descending) for the host's comparison. *)
Definition inOrder (localeCompare : string -> string -> Z)
           (st : DeviceTable.State) (a b : DeviceData) : Prop :=
  match DeviceTable.sortDirection st with
  | DeviceTable.asc =>
      (localeCompare (DeviceTable.sortKey (DeviceTable.sortField st) a)
                     (DeviceTable.sortKey (DeviceTable.sortField st) b) <= 0)%Z
  | DeviceTable.desc =>
      (localeCompare (DeviceTable.sortKey (DeviceTable.sortField st) b)
                     (DeviceTable.sortKey (DeviceTable.sortField st) a) <= 0)%Z
  end.

(** The events that end a fetch of the device list. *)
Definition isFetchOutcome (e : DeviceTable.Event) : bool :=
  match e with
  | DeviceTable.Fetched _ | DeviceTable.FetchFailed => true
  | _ => false
  end.

(** The class of a cell that is not highlighted: the missing background
    colour is printed by name. *)
Definition plainClass : string :=
  "px-6 py-4 whitespace-nowrap text-sm undefined".

(** The upload events of the page. *)
Definition isUpload (e : Home.Event) : bool :=
  match e with
  | Home.UploadSuccess _ _ => true
  | _ => false
  end.

Definition isAutoSelect (e : Home.Event) : bool :=
  match e with
  | Home.AutoSelect => true
  | _ => false
  end.

(** The effects of the uploader that are neither about its flag nor the
    POST itself. *)
Definition isFollowUp (e : FileUploader.Effect) : bool :=
  match e with
  | FileUploader.GetProjects
  | FileUploader.OnUploadSuccess _ _
  | FileUploader.Alert _ => true
  | _ => false
  end.

(** * Properties *)

Import DeviceTable.

(** ** Facts about the JavaScript operations *)

Lemma nonempty_true (s : string) : s <> "" -> JS.nonempty s = true.
Proof. destruct s; [congruence | reflexivity]. Qed.

Lemma strict_eq_spec (a b : option string) : JS.strict_eq a b = true <-> a = b.
Proof.
  destruct a as [x|], b as [y|]; simpl; try (split; congruence).
  rewrite String.eqb_eq. split; congruence.
Qed.

Lemma strict_eq_refl (a : option string) : JS.strict_eq a a = true.
Proof. now apply strict_eq_spec. Qed.

Lemma strict_eq_neq (a b : option string) : a <> b -> JS.strict_eq a b = false.
Proof.
  intros H. destruct (JS.strict_eq a b) eqn:E; [|reflexivity].
  apply strict_eq_spec in E. contradiction.
Qed.

Lemma truthy_some (p : string) : p <> "" -> JS.truthy (Some p) = true.
Proof. apply nonempty_true. Qed.

(** ** The two diff helpers *)

(** The helpers know two outcomes.  The plain one is taken exactly when the
    previous value is falsy (absent or empty) or equal to the current. *)
Lemma renderDiffValue_plain (c : string) (p : option string) :
  renderDiffValue c p = Plain c <-> JS.truthy p = false \/ p = Some c.
Proof.
  unfold renderDiffValue. destruct (JS.truthy p) eqn:T; cbn [negb orb].
  - destruct (JS.strict_eq (Some c) p) eqn:E.
    + apply strict_eq_spec in E. subst p. split; auto.
    + destruct p as [q|]; [|discriminate T]. split.
      * discriminate.
      * intros [H|H]; [discriminate H|].
        rewrite H, strict_eq_refl in E. discriminate E.
  - split; auto.
Qed.

Lemma getDiffStyle_plain (c p : option string) :
  getDiffStyle c p = noStyle <-> JS.truthy p = false \/ c = p.
Proof.
  unfold getDiffStyle. destruct (JS.truthy p) eqn:T; cbn [negb orb].
  - destruct (JS.strict_eq c p) eqn:E.
    + apply strict_eq_spec in E. subst p. split; auto.
    + split; [discriminate|].
      intros [H|H]; [discriminate H|].
      rewrite H, strict_eq_refl in E. discriminate E.
  - split; auto.
Qed.

Lemma renderDiffValue_changed (c p : string) :
  p <> "" -> p <> c -> renderDiffValue c (Some p) = WithPrevious c p.
Proof.
  intros Hp Hc. unfold renderDiffValue.
  rewrite (truthy_some p Hp), strict_eq_neq by congruence. reflexivity.
Qed.

Lemma getDiffStyle_changed (c : option string) (p : string) :
  p <> "" -> c <> Some p ->
  getDiffStyle c (Some p) =
  {| backgroundColor := Some (if JS.strict_eq c (Some "found")
                              then "bg-green-100" else "bg-red-100");
     position := Some "relative" |}.
Proof.
  intros Hp Hc. unfold getDiffStyle.
  rewrite (truthy_some p Hp), strict_eq_neq by congruence. reflexivity.
Qed.

Lemma diffCell_plain (c p : option string) (shown : string)
      (q : option string) :
  JS.truthy p = false \/ c = p ->
  JS.truthy q = false \/ q = Some shown ->
  diffCell c p shown q = diffCell c None shown None.
Proof.
  intros Hp Hq. unfold diffCell.
  apply getDiffStyle_plain in Hp. apply renderDiffValue_plain in Hq.
  rewrite Hp, Hq.
  replace (getDiffStyle c None) with noStyle
    by (symmetry; apply getDiffStyle_plain; auto).
  replace (renderDiffValue shown None) with (Plain shown)
    by (symmetry; apply renderDiffValue_plain; auto).
  reflexivity.
Qed.

Lemma and_then_plain (c : option string) (shown : string) :
  JS.truthy (JS.and_then c shown) = false \/ JS.and_then c shown = Some shown.
Proof.
  unfold JS.and_then. destruct (JS.truthy c) eqn:T; auto.
Qed.

Lemma diffCell_changed (c p : string) :
  p <> "" -> p <> c ->
  diffCell (Some c) (Some p) c (Some p) =
  {| className := cellClass c; body := WithPrevious c p |}.
Proof.
  intros Hp Hc. unfold diffCell, cellClass.
  rewrite renderDiffValue_changed, getDiffStyle_changed by congruence.
  reflexivity.
Qed.

(** ** C1 *)

Lemma append_percent_inj (s t : string) : s ++ "%" = t ++ "%" -> s = t.
Proof.
  revert t. induction s as [|a s IH]; intros [|b t] H; simpl in H.
  - reflexivity.
  - injection H as _ H. destruct t; discriminate H.
  - injection H as _ H. destruct s; discriminate H.
  - injection H as -> H. f_equal. now apply IH.
Qed.

(** A cell of the state or rssi column is one of two things. *)
Lemma diffCell_two_renderings (c : string) (p : option string) :
  ((JS.truthy p = false \/ p = Some c) /\
   diffCell (Some c) p c p = plainCell c) \/
  (exists q, p = Some q /\ q <> "" /\ q <> c /\
             diffCell (Some c) p c p = highlightedCell c c q).
Proof.
  destruct p as [q|].
  - destruct (String.eqb_spec q c) as [->|N].
    + left. split; [now right|].
      rewrite diffCell_plain; [reflexivity | now right | now right].
    + destruct q as [|a q].
      * left. split; [now left|].
        rewrite diffCell_plain; [reflexivity | now left | now left].
      * right. exists (String a q). repeat split; try congruence.
        apply diffCell_changed; congruence.
  - left. split; [now left | reflexivity].
Qed.

(** So is the health cell of a device whose current snapshot has a rate. *)
Lemma healthCell_two_renderings (c : string) (p : option string) :
  ((JS.truthy p = false \/ p = Some c) /\
   diffCell (Some c) p (c ++ "%") (JS.and_then p (JS.interpolate p ++ "%")) =
   plainCell (c ++ "%")) \/
  (exists q, p = Some q /\ q <> "" /\ q <> c /\
             diffCell (Some c) p (c ++ "%")
                      (JS.and_then p (JS.interpolate p ++ "%")) =
             highlightedCell c (c ++ "%") (q ++ "%")).
Proof.
  destruct p as [q|].
  - destruct (String.eqb_spec q c) as [->|N].
    + left. split; [now right|].
      rewrite diffCell_plain; [reflexivity | now right | apply and_then_plain].
    + destruct q as [|a q].
      * left. split; [now left|].
        rewrite diffCell_plain; [reflexivity | now left | now left].
      * right. exists (String a q). repeat split; try congruence.
        unfold diffCell, highlightedCell, cellClass, JS.and_then.
        cbn [JS.truthy JS.nonempty JS.interpolate].
        rewrite getDiffStyle_changed by congruence.
        rewrite renderDiffValue_changed; [reflexivity | discriminate |].
        intros E. apply append_percent_inj in E. congruence.
  - left. split; [now left | reflexivity].
Qed.

(** C1, as the table renders it.  The state cell and the rssi cell, and
    the health cell of a device whose current snapshot has health data, have
    two renderings only: plain, without a background colour and with the
    current value alone, when the previous value is absent, empty or equal
    to the current one; and highlighted, with the previous value on hover,
    when the previous value is a non-empty string different from the
    current one.  A field whose previous value is absent is therefore
    rendered as an unchanged field is: a device without a previous snapshot
    yields the very row of the same device with a previous snapshot equal to
    its current one. *)
Theorem absent_previous_rendered_as_unchanged (d : DeviceData) :
  let s := state (network_data (current d)) in
  let r := rssi (network_data (current d)) in
  (((JS.truthy (previousNetwork state d) = false \/
     previousNetwork state d = Some s) /\
    stateCell (renderRow d) = plainCell s) \/
   (exists q, previousNetwork state d = Some q /\ q <> "" /\ q <> s /\
              stateCell (renderRow d) = highlightedCell s s q)) /\
  (((JS.truthy (previousNetwork rssi d) = false \/
     previousNetwork rssi d = Some r) /\
    rssiCell (renderRow d) = plainCell r) \/
   (exists q, previousNetwork rssi d = Some q /\ q <> "" /\ q <> r /\
              rssiCell (renderRow d) = highlightedCell r r q)) /\
  (forall h : HealthData,
      health_data (current d) = Some h ->
      let c := overallHealthRate h in
      ((JS.truthy (previousHealthRate d) = false \/
        previousHealthRate d = Some c) /\
       healthCell (renderRow d) = plainCell (c ++ "%")) \/
      (exists q, previousHealthRate d = Some q /\ q <> "" /\ q <> c /\
                 healthCell (renderRow d) =
                 highlightedCell c (c ++ "%") (q ++ "%"))) /\
  (previous d = None ->
   stateCell (renderRow d) = plainCell s /\
   rssiCell (renderRow d) = plainCell r /\
   healthCell (renderRow d) =
   plainCell (JS.interpolate (healthRate (current d)) ++ "%")) /\
  renderRow (withPrevious None d) =
  renderRow (withPrevious (Some (current d)) d).
Proof.
  intros s r. split; [|split; [|split; [|split]]].
  - apply diffCell_two_renderings.
  - apply diffCell_two_renderings.
  - intros h Hh c. cbn [renderRow healthCell]. unfold healthRate.
    rewrite Hh. cbn [option_map JS.interpolate].
    apply healthCell_two_renderings.
  - intros Hp. cbn [renderRow stateCell rssiCell healthCell].
    unfold previousNetwork, previousHealthRate. rewrite Hp.
    repeat split.
  - unfold renderRow, previousNetwork, previousHealthRate. simpl.
    f_equal.
    + symmetry. apply diffCell_plain; auto.
    + symmetry. apply diffCell_plain; auto.
    + symmetry. apply diffCell_plain; [auto | apply and_then_plain].
Qed.

(** C1 as the specification states it fails: the state of a device seen
    for the first time is [appeared], that of a steady device [unchanged],
    and the table renders the two devices identically. *)
Lemma appeared_rendered_like_unchanged :
  Spec.classify (Some "found") None = Spec.appeared /\
  Spec.classify (Some "found") (Some "found") = Spec.unchanged /\
  renderRow Sample.firstSeen = renderRow Sample.steady.
Proof. repeat split. Qed.

(** ** C2 and C3: the history block *)

Lemma historyBlock_shown (d : DeviceData) :
  history (renderRow d) <> None <->
  lighting_history d <> None /\ state (network_data (current d)) <> "found".
Proof.
  simpl. unfold historyBlock.
  destruct (lighting_history d) as [h|].
  - destruct (String.eqb_spec (state (network_data (current d))) "found")
      as [E|E]; simpl; split.
    + intros H. now contradiction H.
    + intros [_ H]. contradiction.
    + intros _. split; [discriminate | assumption].
    + intros _. discriminate.
  - split; [intros H; now contradiction H | intros [H _]; now contradiction H].
Qed.

Lemma historyBlock_prefix (d : DeviceData) (l : list Lighting.t) :
  history (renderRow d) = Some l ->
  exists h, lighting_history d = Some h /\ l = firstn 5 h /\ length l <= 5.
Proof.
  change (history (renderRow d)) with (historyBlock d).
  unfold historyBlock, JS.slice0.
  destruct (lighting_history d) as [h|]; [|discriminate].
  destruct (negb _); [|discriminate].
  intros H. assert (E : l = firstn 5 h) by congruence.
  exists h. repeat split; [exact E|].
  rewrite E. apply List.firstn_le_length.
Qed.

(** C2, as the table decides it: the history block is shown exactly when
    the device has a lighting history and its current state is not "found";
    the previous snapshot plays no part in it. *)
Theorem history_shown_iff_current_not_found (d : DeviceData) :
  (history (renderRow d) <> None <->
   lighting_history d <> None /\
   state (network_data (current d)) <> "found") /\
  (forall p : option Snapshot,
      history (renderRow (withPrevious p d)) = history (renderRow d)).
Proof.
  split; [apply historyBlock_shown | reflexivity].
Qed.

(** C2 as the specification states it fails: a device that was never
    found, and has no previous snapshot at all, gets the history block. *)
Lemma history_shown_without_transition :
  ~ (forall d : DeviceData,
        history (renderRow d) <> None <-> Spec.leftFound d = true).
Proof.
  intros H. specialize (H Sample.neverFound).
  assert (E : Spec.leftFound Sample.neverFound = true)
    by (apply H; discriminate).
  discriminate E.
Qed.

(** C3 at a history of six events, oldest first: the block shows the
    first five, which are not the last five, and leaves out the newest. *)
Theorem history_block_takes_the_oldest_five :
  history (renderRow Sample.scenario) = Some (firstn 5 Sample.sixEvents) /\
  history (renderRow Sample.scenario)
    <> Some (Spec.lastN 5 Sample.sixEvents) /\
  (forall l, history (renderRow Sample.scenario) = Some l ->
             ~ In (Sample.entry "off" "2024-01-01T00:00:06") l).
Proof.
  split; [reflexivity | split].
  - discriminate.
  - intros l [= <-] H. simpl in H.
    repeat (destruct H as [H|H]; [discriminate H|]). exact H.
Qed.

(** ** C4 *)

(** C4, as the table renders it.  When the previous snapshot is present
    and its state, its rssi or (both snapshots having health data) its
    health rate is a non-empty string different from the current one, the
    cell is highlighted and shows the current value together with the
    previous one, the rates with a percent sign.  A previous value that is
    the empty string leaves the cell plain.  The cells of the address, the
    device name and the reason show the current snapshot, whatever the
    previous snapshot is. *)
Theorem changed_field_shows_both_values (d : DeviceData) (p : Snapshot) :
  previous d = Some p ->
  (state (network_data p) <> "" ->
   state (network_data p) <> state (network_data (current d)) ->
   stateCell (renderRow d) =
   {| className := cellClass (state (network_data (current d)));
      body := WithPrevious (state (network_data (current d)))
                           (state (network_data p)) |}) /\
  (rssi (network_data p) <> "" ->
   rssi (network_data p) <> rssi (network_data (current d)) ->
   rssiCell (renderRow d) =
   {| className := cellClass (rssi (network_data (current d)));
      body := WithPrevious (rssi (network_data (current d)))
                           (rssi (network_data p)) |}) /\
  (forall h hp : HealthData,
      health_data (current d) = Some h -> health_data p = Some hp ->
      overallHealthRate hp <> "" ->
      overallHealthRate hp <> overallHealthRate h ->
      healthCell (renderRow d) =
      {| className := cellClass (overallHealthRate h);
         body := WithPrevious (overallHealthRate h ++ "%")
                              (overallHealthRate hp ++ "%") |}) /\
  (state (network_data p) = "" ->
   stateCell (renderRow d) = plainCell (state (network_data (current d)))) /\
  (rssi (network_data p) = "" ->
   rssiCell (renderRow d) = plainCell (rssi (network_data (current d)))) /\
  (forall hp : HealthData,
      health_data p = Some hp -> overallHealthRate hp = "" ->
      healthCell (renderRow d) =
      plainCell (JS.interpolate (healthRate (current d)) ++ "%")) /\
  (forall q : option Snapshot,
      ipCell (renderRow (withPrevious q d)) = ip (network_data (current d)) /\
      nameCell (renderRow (withPrevious q d)) =
      option_map deviceName (health_data (current d)) /\
      reasonText (renderRow (withPrevious q d)) =
      option_map reason (health_data (current d))).
Proof.
  intros Hp.
  split; [|split; [|split; [|split; [|split; [|split]]]]].
  - intros N D. cbn [renderRow stateCell]. unfold previousNetwork.
    rewrite Hp. now apply diffCell_changed.
  - intros N D. cbn [renderRow rssiCell]. unfold previousNetwork.
    rewrite Hp. now apply diffCell_changed.
  - intros h hp Hh Hhp N D. cbn [renderRow healthCell].
    unfold previousHealthRate, healthRate. rewrite Hp, Hh, Hhp.
    cbn [option_map JS.interpolate].
    destruct (healthCell_two_renderings (overallHealthRate h)
                (Some (overallHealthRate hp))) as [[[T|E] _] | [q [E [_ [_ C]]]]].
    + rewrite (truthy_some _ N) in T. discriminate T.
    + congruence.
    + injection E as <-. exact C.
  - intros E. cbn [renderRow stateCell]. unfold previousNetwork.
    rewrite Hp. cbn [option_map]. rewrite E.
    rewrite diffCell_plain; [reflexivity | now left | now left].
  - intros E. cbn [renderRow rssiCell]. unfold previousNetwork.
    rewrite Hp. cbn [option_map]. rewrite E.
    rewrite diffCell_plain; [reflexivity | now left | now left].
  - intros hp Hhp E. cbn [renderRow healthCell].
    unfold previousHealthRate. rewrite Hp. unfold healthRate at 2 4 5.
    rewrite Hhp. cbn [option_map]. rewrite E.
    rewrite diffCell_plain; [reflexivity | now left | now left].
  - intros q. repeat split.
Qed.

Lemma changed_field_shows_both_values_witness :
  stateCell (renderRow Sample.scenario) =
  {| className := "px-6 py-4 whitespace-nowrap text-sm bg-red-100";
     body := WithPrevious "missing" "found" |} /\
  rssiCell (renderRow Sample.scenario) =
  {| className := "px-6 py-4 whitespace-nowrap text-sm bg-red-100";
     body := WithPrevious "-70" "-40" |} /\
  healthCell (renderRow Sample.scenario) =
  {| className := "px-6 py-4 whitespace-nowrap text-sm bg-red-100";
     body := WithPrevious "80%" "97%" |}.
Proof.
  destruct (changed_field_shows_both_values Sample.scenario Sample.c1 eq_refl)
    as [Hs [Hr [Hh _]]].
  split; [apply Hs | split; [apply Hr | apply (Hh _ _ eq_refl eq_refl)]];
    discriminate.
Defined.

(** C4 as the specification states it fails twice.  A previous state that
    is the empty string differs from the current one and is not shown; and
    the address, a tracked field, is never compared: two devices that
    differ in their previous address only, both unlike the current one,
    yield the same row. *)
Lemma changed_field_not_always_surfaced :
  ~ (forall (d : DeviceData) (p : Snapshot),
        previous d = Some p ->
        state (network_data p) <> state (network_data (current d)) ->
        body (stateCell (renderRow d)) =
        WithPrevious (state (network_data (current d)))
                     (state (network_data p))) /\
  renderRow (Sample.movedFrom "10.0.0.8") =
  renderRow (Sample.movedFrom "10.0.0.9").
Proof.
  split; [|reflexivity].
  intros H.
  specialize (H Sample.emptyBefore _ eq_refl).
  simpl in H. discriminate H. discriminate.
Qed.

(** ** C5 *)

(** C5 at a crash whose text holds markup: the text is placed between the
    two [pre] tags as it is, with its angle brackets and ampersands, and
    the whole is assigned to [innerHTML], which reads it as HTML. *)
Theorem crash_content_assigned_as_markup :
  (forall crash : Crash.t,
      CrashDetails.modalInnerHTML (CrashDetails.card crash) =
      "<pre>" ++ Crash.content crash ++ "</pre>") /\
  CrashDetails.render (Some [Sample.markupCrash]) =
  Some [ {| CrashDetails.processLine := "lightd";
            CrashDetails.timeLine := "t1";
            CrashDetails.modalInnerHTML := "<pre>a <b>c</b> &amp; d</pre>" |} ].
Proof. split; reflexivity. Qed.

(** ** C6 *)

(** C6, as the table renders it: whenever the current snapshot has health
    data, the health cell shows the stored rate followed by a percent sign,
    whatever the rate is; and a previous rate shown on hover is a non-empty
    stored rate followed by a percent sign. *)
Theorem health_rate_always_suffixed (d : DeviceData) (h : HealthData) :
  health_data (current d) = Some h ->
  shownText (body (healthCell (renderRow d))) = overallHealthRate h ++ "%" /\
  (forall s t, body (healthCell (renderRow d)) = WithPrevious s t ->
               exists p hp, previous d = Some p /\ health_data p = Some hp /\
                            overallHealthRate hp <> "" /\
                            t = overallHealthRate hp ++ "%").
Proof.
  intros Hh. unfold renderRow, diffCell. cbn [healthCell body].
  unfold healthRate. rewrite Hh. cbn [option_map JS.interpolate].
  split.
  - unfold renderDiffValue. destruct (_ || _); [reflexivity|].
    destruct (JS.and_then _ _); reflexivity.
  - intros s t. unfold renderDiffValue, previousHealthRate.
    destruct (previous d) as [p|]; [|discriminate].
    unfold healthRate, JS.and_then.
    destruct (health_data p) as [hp|] eqn:Ep;
      cbn [option_map JS.interpolate JS.truthy negb orb]; [|discriminate].
    destruct (overallHealthRate hp) as [|a r] eqn:E;
      cbn [JS.nonempty JS.truthy negb orb]; [discriminate|].
    destruct (JS.strict_eq _ _); [discriminate|].
    intros H. simpl in H. injection H as _ Ht.
    exists p, hp. repeat split; try congruence. rewrite E. now symmetry.
Qed.

Lemma health_rate_always_suffixed_witness :
  shownText (body (healthCell (renderRow Sample.scenario))) = "80%" /\
  body (healthCell (renderRow Sample.scenario)) = WithPrevious "80%" "97%".
Proof.
  split.
  - exact (proj1 (health_rate_always_suffixed Sample.scenario
                    (Sample.health "80") eq_refl)).
  - reflexivity.
Defined.

(** C6 as the specification states it fails: a rate that is not a number
    is shown with the percent sign appended. *)
Lemma non_numeric_rate_gets_percent :
  Spec.isNumeric "N/A" = false /\
  health_data (current Sample.rawRate) = Some (Sample.health "N/A") /\
  body (healthCell (renderRow Sample.rawRate)) = Plain "N/A%".
Proof. repeat split. Qed.

(** ** C7 *)

Lemma insertSorted_perm (cmp : DeviceData -> DeviceData -> Z)
      (x : DeviceData) (l : list DeviceData) :
  Permutation (insertSorted cmp x l) (x :: l).
Proof.
  induction l as [|y r IH]; simpl.
  - apply Permutation_refl.
  - destruct (cmp x y <=? 0)%Z.
    + apply Permutation_refl.
    + eapply perm_trans; [apply perm_skip, IH | apply perm_swap].
Qed.

Lemma sortBy_perm (cmp : DeviceData -> DeviceData -> Z) (l : list DeviceData) :
  Permutation (sortBy cmp l) l.
Proof.
  induction l as [|x r IH]; simpl.
  - apply perm_nil.
  - eapply perm_trans; [apply insertSorted_perm | apply perm_skip, IH].
Qed.

Lemma handleSort_keeps_filter (field : string) (st : State) :
  loading (handleSort field st) = loading st /\
  filteredDevices (handleSort field st) = filteredDevices st.
Proof.
  unfold handleSort. destruct (String.eqb (sortField st) field); split; reflexivity.
Qed.

Lemma rows_perm (cmp : string -> string -> Z) (st : State) :
  Permutation (rowsOf (render cmp st))
              (if loading st then [] else map renderRow (filteredDevices st)).
Proof.
  unfold render. destruct (loading st); simpl.
  - apply perm_nil.
  - apply Permutation_map, sortBy_perm.
Qed.

Lemma rows_after_sorting (cmp : string -> string -> Z) (fields : list string)
      (st : State) :
  Permutation (rowsOf (render cmp (fold_right handleSort st fields)))
              (rowsOf (render cmp st)).
Proof.
  induction fields as [|f r IH]; simpl.
  - apply Permutation_refl.
  - eapply perm_trans; [|exact IH].
    eapply perm_trans; [apply rows_perm|].
    destruct (handleSort_keeps_filter f (fold_right handleSort st r)) as [-> ->].
    apply Permutation_sym, rows_perm.
Qed.

Lemma diff_cells_from_inputs (d : DeviceData) :
  diffOutputs (renderRow d) =
  (let '((s, ps), (r, pr), (h, ph)) := diffInputs d in
   (diffCell (Some s) ps s ps,
    diffCell (Some r) pr r pr,
    diffCell h ph (JS.interpolate h ++ "%")
             (JS.and_then ph (JS.interpolate ph ++ "%")))).
Proof. reflexivity. Qed.

(** C7: the diff cells of a row are a function of the tracked values of
    its device and of nothing else.  Whatever the two tables are (their
    devices, filters, sort settings, the host's string comparison), two
    visible devices with the same current and previous tracked values get
    rows with the same diff cells; and sort clicks made before a rendering
    only permute its rows. *)
Theorem diff_rendering_deterministic
        (cmp1 cmp2 : string -> string -> Z) (st1 st2 : State)
        (d1 d2 : DeviceData) :
  loading st1 = false -> loading st2 = false ->
  In d1 (filteredDevices st1) -> In d2 (filteredDevices st2) ->
  diffInputs d1 = diffInputs d2 ->
  In (renderRow d1) (rowsOf (render cmp1 st1)) /\
  In (renderRow d2) (rowsOf (render cmp2 st2)) /\
  diffOutputs (renderRow d1) = diffOutputs (renderRow d2) /\
  (forall fields : list string,
      Permutation (rowsOf (render cmp1 (fold_right handleSort st1 fields)))
                  (rowsOf (render cmp1 st1))).
Proof.
  intros L1 L2 H1 H2 E.
  assert (V : forall cmp st d, loading st = false -> In d (filteredDevices st) ->
                               In (renderRow d) (rowsOf (render cmp st))).
  { intros cmp st d L H.
    eapply Permutation_in; [apply Permutation_sym, rows_perm|].
    rewrite L. now apply in_map. }
  repeat split; auto.
  - now rewrite !diff_cells_from_inputs, E.
  - intros fields. apply rows_after_sorting.
Qed.

Lemma diff_rendering_deterministic_witness :
  In (renderRow Sample.scenario) (rowsOf (render Sample.byLength Sample.tableA)) /\
  In (renderRow Sample.twin) (rowsOf (render (fun _ _ => 0%Z) Sample.tableB)) /\
  diffOutputs (renderRow Sample.scenario) = diffOutputs (renderRow Sample.twin) /\
  (forall fields : list string,
      Permutation
        (rowsOf (render Sample.byLength
                        (fold_right handleSort Sample.tableA fields)))
        (rowsOf (render Sample.byLength Sample.tableA))).
Proof.
  apply (diff_rendering_deterministic Sample.byLength (fun _ _ => 0%Z)
           Sample.tableA Sample.tableB Sample.scenario Sample.twin).
  - reflexivity.
  - reflexivity.
  - right. left. reflexivity.
  - left. reflexivity.
  - reflexivity.
Defined.

(** ** C8 *)

Import FileUploader.

Lemma fileAccepted_unfold (file : File) :
  fileAccepted file =
  String.eqb (type file) "application/x-moz-file" ||
  (String.eqb (JS.toLowerCase (type file)) "application/gzip" ||
   (JS.endsWith (JS.toLowerCase (name file)) ".tgz" || false)).
Proof. reflexivity. Qed.

Lemma fileAccepted_spec (file : File) :
  fileAccepted file = true <->
  type file = "application/x-moz-file" \/
  JS.toLowerCase (type file) = "application/gzip" \/
  JS.endsWith (JS.toLowerCase (name file)) ".tgz" = true.
Proof.
  rewrite fileAccepted_unfold, !orb_true_iff, !String.eqb_eq.
  split; intros [H|[H|H]]; auto.
  destruct H as [H|H]; [auto | discriminate H].
Qed.

Lemma onDrop_in (accepted : list File) (file : File) :
  onDrop accepted = Some file -> In file accepted.
Proof.
  destruct accepted as [|f r]; simpl; [discriminate|].
  intros [= ->]. now left.
Qed.

Lemma withMimeType_spec (mimeOf : string -> option string) (raw : File) :
  name (withMimeType mimeOf raw) = name raw /\
  (type raw <> "" -> withMimeType mimeOf raw = raw) /\
  (type (withMimeType mimeOf raw) = type raw \/
   (type raw = "" /\
    mimeOf (JS.toLowerCase (lastSegment (name raw))) =
    Some (type (withMimeType mimeOf raw)))).
Proof.
  unfold withMimeType.
  destruct (type raw) as [|a t] eqn:T; cbn [JS.nonempty negb].
  - rewrite andb_true_r.
    destruct (hasExtension (name raw));
      [|split; [reflexivity | split; [congruence | now left]]].
    destruct (mimeOf _) as [m|] eqn:M;
      [|split; [reflexivity | split; [congruence | now left]]].
    destruct m as [|b m]; cbn [JS.nonempty name type];
      [split; [reflexivity | split; [congruence | now left]]|].
    split; [reflexivity | split; [congruence | right; now split]].
  - rewrite andb_false_r. split; [reflexivity | split; [reflexivity | now left]].
Qed.

Lemma selectedFiles_in (mimeOf : string -> option string) (origin : Origin)
      (files : list File) (file : File) :
  In file (selectedFiles mimeOf origin files) ->
  exists raw, In raw files /\ file = withMimeType mimeOf raw /\
              (origin = Dropped -> ignored raw = false).
Proof.
  destruct origin; unfold selectedFiles.
  - rewrite filter_In, in_map_iff. intros [[raw [<- Hin]] Hi].
    exists raw. repeat split; [exact Hin|]. intros _.
    unfold ignored in *.
    rewrite (proj1 (withMimeType_spec mimeOf raw)) in Hi.
    now apply negb_true_iff in Hi.
  - rewrite in_map_iff. intros [raw [<- Hin]].
    exists raw. repeat split; [exact Hin | discriminate].
Qed.

Lemma filter_head {A : Type} (f : A -> bool) (l : list A) :
  match filter f l with
  | x :: _ => exists pre post, l = (pre ++ x :: post)%list /\
                               forallb (fun y => negb (f y)) pre = true /\
                               f x = true
  | [] => forallb (fun y => negb (f y)) l = true
  end.
Proof.
  induction l as [|a l IH]; simpl; [reflexivity|].
  destruct (f a) eqn:E; simpl.
  - exists [], l. auto.
  - destruct (filter f l) as [|x r]; [exact IH|].
    destruct IH as [pre [post [-> [Hp Hx]]]].
    exists (a :: pre), post. simpl. now rewrite E.
Qed.

Lemma submitted_first (mimeOf : string -> option string) (origin : Origin)
      (files : list File) :
  match submitted mimeOf origin files with
  | Some file =>
      exists pre post,
        selectedFiles mimeOf origin files = (pre ++ file :: post)%list /\
        forallb (fun f => negb (fileAccepted f)) pre = true /\
        fileAccepted file = true
  | None =>
      forallb (fun f => negb (fileAccepted f))
              (selectedFiles mimeOf origin files) = true
  end.
Proof.
  unfold submitted, acceptedFiles, onDrop.
  pose proof (filter_head fileAccepted (selectedFiles mimeOf origin files))
    as H.
  destruct (filter fileAccepted _); exact H.
Qed.

(** C8, as the uploader submits.  Of the files of one event the uploader
    posts at most one: the first, among the files the drop zone reads (a
    drop without its [.DS_Store] and [Thumbs.db] entries), that passes the
    accept filter.  The file posted has the name of an offered file and its
    declared type, or, when none was declared, the type that the drop
    zone's table gives for its extension; and that type is
    [application/gzip], or the name ends in [.tgz] (both without regard to
    case), or the type is Firefox's placeholder.  An offered file with a
    declared type that fails all three tests is never the one posted. *)
Theorem submitted_file_passes_filter
        (mimeOf : string -> option string) (origin : Origin)
        (files : list File) (file : File) :
  submitted mimeOf origin files = Some file ->
  (exists raw,
      In raw files /\ (origin = Dropped -> ignored raw = false) /\
      name file = name raw /\
      (type file = type raw \/
       (type raw = "" /\
        mimeOf (JS.toLowerCase (lastSegment (name raw))) = Some (type file)))) /\
  (exists pre post,
      selectedFiles mimeOf origin files = (pre ++ file :: post)%list /\
      forallb (fun f => negb (fileAccepted f)) pre = true) /\
  (type file = "application/x-moz-file" \/
   JS.toLowerCase (type file) = "application/gzip" \/
   JS.endsWith (JS.toLowerCase (name file)) ".tgz" = true) /\
  (forall raw,
      type raw <> "" ->
      type raw <> "application/x-moz-file" ->
      JS.toLowerCase (type raw) <> "application/gzip" ->
      JS.endsWith (JS.toLowerCase (name raw)) ".tgz" = false ->
      file <> raw).
Proof.
  intros H. pose proof (submitted_first mimeOf origin files) as F.
  rewrite H in F. destruct F as [pre [post [E [Hpre Hacc]]]].
  assert (Hin : In file (selectedFiles mimeOf origin files))
    by (rewrite E; apply in_or_app; right; now left).
  apply selectedFiles_in in Hin. destruct Hin as [raw [Hraw [-> Hi]]].
  destruct (withMimeType_spec mimeOf raw) as [Hn [_ Ht]].
  apply fileAccepted_spec in Hacc.
  split; [|split; [|split]].
  - exists raw. repeat split; assumption.
  - now exists pre, post.
  - exact Hacc.
  - intros raw' T M G Z Eq. rewrite Eq in Hacc.
    destruct Hacc as [A|[A|A]]; congruence.
Qed.

Lemma submitted_file_passes_filter_witness :
  (exists pre post,
      selectedFiles Sample.mimeTable Dropped
                    [Sample.plainText; Sample.gzipTarGz] =
      (pre ++ Sample.gzipTarGz :: post)%list /\
      forallb (fun f => negb (fileAccepted f)) pre = true) /\
  Sample.gzipTarGz <> Sample.plainText.
Proof.
  destruct (submitted_file_passes_filter Sample.mimeTable Dropped
              [Sample.plainText; Sample.gzipTarGz] Sample.gzipTarGz eq_refl)
    as [_ [First [_ Never]]].
  split; [exact First|].
  apply Never; [discriminate | discriminate | discriminate | reflexivity].
Defined.

(** C8 as the specification states it fails, whatever the table of the
    drop zone and whichever way the files come in: a file declared as plain
    text is posted when its name ends in [.tgz]. *)
Lemma file_of_other_type_submitted :
  ~ (exists (mimeOf : string -> option string) (origin : Origin),
        forall (files : list File) (file : File),
          Spec.declaredTgz file = false ->
          submitted mimeOf origin files <> Some file).
Proof.
  intros [mimeOf [origin H]].
  apply (H [Sample.plainText; Sample.renamedTgz] Sample.renamedTgz);
    [reflexivity | destruct origin; reflexivity].
Qed.

(** ** C9 *)

Lemma keeps_without_health (st : State) (d : DeviceData) :
  health_data (current d) = None ->
  keeps st d = negb (JS.nonempty (nameFilter st)) && matchesState st d.
Proof.
  intros H. unfold keeps, matchesName. rewrite H.
  destruct (matchesState st d), (JS.nonempty (nameFilter st)); reflexivity.
Qed.

(** C9: a device whose current snapshot has no health data is left out of
    the filtered list as soon as the name filter is non-empty.  With an
    empty name filter the name test passes, so that the device is listed
    exactly when the state filter lets it through; with both filters empty
    it is always listed. *)
Theorem missing_health_data_hidden_by_name_filter
        (st : State) (d : DeviceData) :
  health_data (current d) = None ->
  (nameFilter st <> "" -> ~ In d (filteredDevices st)) /\
  (nameFilter st = "" ->
   (In d (filteredDevices st) <->
    In d (devices st) /\ matchesState st d = true)) /\
  (nameFilter st = "" -> stateFilter st = "" ->
   In d (devices st) -> In d (filteredDevices st)).
Proof.
  intros H. pose proof (keeps_without_health st d H) as K.
  unfold filteredDevices. split; [|split].
  - intros Hn Hin. apply filter_In in Hin. destruct Hin as [_ Hk].
    rewrite K, (nonempty_true _ Hn) in Hk. discriminate Hk.
  - intros Hn. rewrite filter_In, K, Hn. simpl. tauto.
  - intros Hn Hs Hin. apply filter_In. split; [exact Hin|].
    rewrite K, Hn. unfold matchesState. rewrite Hs. reflexivity.
Qed.

Lemma missing_health_data_hidden_by_name_filter_witness :
  ~ In Sample.neverFound
       (filteredDevices (Sample.table "" "ha" [Sample.neverFound; Sample.steady])) /\
  In Sample.neverFound
     (filteredDevices (Sample.table "" "" [Sample.neverFound; Sample.steady])).
Proof.
  split.
  - apply (missing_health_data_hidden_by_name_filter
             (Sample.table "" "ha" [Sample.neverFound; Sample.steady])
             Sample.neverFound eq_refl).
    discriminate.
  - apply (missing_health_data_hidden_by_name_filter
             (Sample.table "" "" [Sample.neverFound; Sample.steady])
             Sample.neverFound eq_refl);
      [reflexivity | reflexivity | left; reflexivity].
Defined.

(** ** C10 *)

Import Home.

Lemma step_keeps_no_capture (st : Home.State) (e : Event) :
  selectedCapture st = None -> selectedCapture (step st e) = None.
Proof.
  intros H. destruct e as [o|p n|]; simpl; try reflexivity.
  unfold autoSelect. destruct (JS.truthyNumber _); simpl; exact H.
Qed.

Lemma run_keeps_no_capture (events : list Event) (st : Home.State) :
  selectedCapture st = None -> selectedCapture (run events st) = None.
Proof.
  revert st. induction events as [|e r IH]; intros st H; simpl.
  - exact H.
  - apply IH, step_keeps_no_capture, H.
Qed.

Lemma deviceQuery_capture (st : Home.State) (q : Query) :
  deviceQuery st = Some q ->
  selectedProject st = Some (queryProject q) /\
  (selectedCapture st = None -> queryCapture q = None).
Proof.
  unfold deviceQuery. destruct (selectedProject st) as [p|]; [|discriminate].
  destruct (JS.truthyNumber (Some p)); [|discriminate].
  intros [= <-]. simpl. split; [reflexivity|].
  intros ->. reflexivity.
Qed.

(** C10: choosing an option of the project selector, the placeholder
    included, sets the project to the chosen one and the capture to none in
    one step, whatever capture was selected before.  No later event selects
    a capture, so that every device query made afterwards is for the
    selected project and carries no capture at all. *)
Theorem project_change_resets_capture
        (st : Home.State) (o : SelectOption) (events : list Event) :
  selectedProject (onChange o st) = chosenProjectId o /\
  selectedCapture (onChange o st) = None /\
  selectedCapture (run events (onChange o st)) = None /\
  (forall q : Query,
      deviceQuery (run events (onChange o st)) = Some q ->
      selectedProject (run events (onChange o st)) = Some (queryProject q) /\
      queryCapture q = None).
Proof.
  assert (N : selectedCapture (run events (onChange o st)) = None)
    by (apply run_keeps_no_capture; reflexivity).
  split; [reflexivity | split; [reflexivity | split; [exact N|]]].
  intros q Hq. destruct (deviceQuery_capture _ q Hq) as [Hp Hc].
  split; [exact Hp | exact (Hc N)].
Qed.

(** * Further properties of the components *)

(** ** Substrings *)

Lemma prefix_app (p s : string) :
  String.prefix p s = true <-> exists post, s = p ++ post.
Proof.
  revert s. induction p as [|a p IH]; intros s; destruct s as [|b s]; simpl.
  - split; [intros _; now exists "" | reflexivity].
  - split; [intros _; now exists (String b s) | reflexivity].
  - split; [discriminate | intros [post H]; discriminate H].
  - destruct (Ascii.ascii_dec a b) as [->|N].
    + rewrite IH. split; intros [post H]; exists post; congruence.
    + split; [discriminate | intros [post H]; congruence].
Qed.

Lemma includes_spec (hay needle : string) :
  JS.includes hay needle = true <->
  exists pre post, hay = pre ++ needle ++ post.
Proof.
  induction hay as [|a hay IH].
  - change (JS.includes "" needle) with (String.prefix needle "" || false).
    rewrite orb_false_r, prefix_app. split.
    + intros [post H]. now exists "", post.
    + intros [pre [post H]]. destruct pre; [now exists post | discriminate H].
  - change (JS.includes (String a hay) needle)
      with (String.prefix needle (String a hay) || JS.includes hay needle).
    rewrite orb_true_iff, prefix_app, IH. split.
    + intros [[post H] | [pre [post H]]].
      * now exists "", post.
      * exists (String a pre), post. simpl. now rewrite H.
    + intros [pre [post H]]. destruct pre as [|b pre]; simpl in H.
      * left. now exists post.
      * right. exists pre, post. congruence.
Qed.

Lemma lower_char_idempotent (c : ascii) :
  JS.lower_char (JS.lower_char c) = JS.lower_char c.
Proof. destruct c as [[] [] [] [] [] [] [] []]; reflexivity. Qed.

Lemma toLowerCase_idempotent (s : string) :
  JS.toLowerCase (JS.toLowerCase s) = JS.toLowerCase s.
Proof.
  induction s as [|c s IH]; simpl; [reflexivity|].
  now rewrite lower_char_idempotent, IH.
Qed.

Lemma nonempty_toLowerCase (s : string) :
  JS.nonempty (JS.toLowerCase s) = JS.nonempty s.
Proof. destruct s; reflexivity. Qed.

(** ** filteredDevices *)

Lemma filteredDevices_instance (st : DeviceTable.State) :
  filteredDevices st = filteredDevicesWith JS.toLowerCase st.
Proof. reflexivity. Qed.

Lemma keepsWith_spec (lower : string -> string) (st : DeviceTable.State)
      (d : DeviceData) :
  keepsWith lower st d = true <->
  (stateFilter st = "" \/
   exists pre post,
     lower (state (network_data (current d))) =
     pre ++ lower (stateFilter st) ++ post) /\
  (nameFilter st = "" \/
   exists h pre post,
     health_data (current d) = Some h /\
     lower (deviceName h) = pre ++ lower (nameFilter st) ++ post).
Proof.
  unfold keepsWith, matchesStateWith, matchesNameWith.
  assert (S : forall f hay,
             negb (JS.nonempty f) || JS.includes hay (lower f) = true <->
             f = "" \/ exists pre post, hay = pre ++ lower f ++ post).
  { intros f hay. rewrite orb_true_iff, includes_spec.
    destruct f as [|a f]; cbn [JS.nonempty negb]; split; auto.
    - intros [H|H]; [discriminate H | now right].
    - intros [H|H]; [discriminate H | now right]. }
  destruct (negb (JS.nonempty (stateFilter st)) || _) eqn:Es.
  - apply S in Es.
    destruct (JS.nonempty (nameFilter st)) eqn:En; cbn [negb].
    + destruct (health_data (current d)) as [h|].
      * rewrite includes_spec. split.
        -- intros [pre [post H]]. split; [exact Es|].
           right. now exists h, pre, post.
        -- intros [_ [H | [h' [pre [post [Hh H]]]]]].
           ++ rewrite H in En. discriminate En.
           ++ injection Hh as <-. now exists pre, post.
      * split; [discriminate|].
        intros [_ [H | [h' [pre [post [Hh H]]]]]]; [|discriminate Hh].
        rewrite H in En. discriminate En.
    + split; [|reflexivity]. intros _. split; [exact Es|].
      left. destruct (nameFilter st); [reflexivity | discriminate En].
  - split; [discriminate|]. intros [H _]. apply S in H. congruence.
Qed.

(** X1: whatever the host's lower-casing is, the filtered list holds
    exactly the devices whose lower-cased state contains the lower-cased
    state filter and whose lower-cased device name contains the lower-cased
    name filter, an empty filter letting everything through; with both
    filters empty nothing is removed. *)
Theorem filteredDevices_characterised
        (toLowerCase : string -> string) (st : DeviceTable.State) :
  (forall d : DeviceData,
      In d (filteredDevicesWith toLowerCase st) <->
      In d (devices st) /\
      (stateFilter st = "" \/
       exists pre post,
         toLowerCase (state (network_data (current d))) =
         pre ++ toLowerCase (stateFilter st) ++ post) /\
      (nameFilter st = "" \/
       exists h pre post,
         health_data (current d) = Some h /\
         toLowerCase (deviceName h) =
         pre ++ toLowerCase (nameFilter st) ++ post)) /\
  (stateFilter st = "" -> nameFilter st = "" ->
   filteredDevicesWith toLowerCase st = devices st).
Proof.
  split.
  - intros d. unfold filteredDevicesWith.
    now rewrite filter_In, keepsWith_spec.
  - intros Hs Hn. unfold filteredDevicesWith.
    apply forallb_filter_id. apply forallb_forall. intros d _.
    apply keepsWith_spec. auto.
Qed.

(** X2: the two filters do not see letter case, whatever the host's
    lower-casing is, provided it turns no other string than the empty one
    into the empty one: two tables over the same devices whose filters
    agree once lower-cased list the same devices. *)
Theorem filters_ignore_case
        (toLowerCase : string -> string) (st st' : DeviceTable.State) :
  (forall s, toLowerCase s = "" <-> s = "") ->
  devices st = devices st' ->
  toLowerCase (stateFilter st) = toLowerCase (stateFilter st') ->
  toLowerCase (nameFilter st) = toLowerCase (nameFilter st') ->
  filteredDevicesWith toLowerCase st = filteredDevicesWith toLowerCase st'.
Proof.
  intros Hz Hd Hs Hn.
  assert (N : forall f g, toLowerCase f = toLowerCase g ->
                          JS.nonempty f = JS.nonempty g).
  { intros f g E. destruct f as [|a f], g as [|b g]; try reflexivity.
    - symmetry in E. rewrite (proj2 (Hz "") eq_refl) in E.
      apply (proj1 (Hz _)) in E. discriminate E.
    - rewrite (proj2 (Hz "") eq_refl) in E.
      apply (proj1 (Hz _)) in E. discriminate E. }
  unfold filteredDevicesWith. rewrite Hd.
  apply filter_ext. intros d.
  unfold keepsWith, matchesStateWith, matchesNameWith.
  now rewrite (N _ _ Hs), (N _ _ Hn), Hs, Hn.
Qed.

Lemma filters_ignore_case_witness :
  filteredDevices Sample.shouting = filteredDevices Sample.whispering.
Proof.
  apply (filters_ignore_case JS.toLowerCase Sample.shouting Sample.whispering).
  - intros s. destruct s; simpl; split; congruence.
  - reflexivity.
  - reflexivity.
  - reflexivity.
Defined.

(** ** handleSort and sortedDevices *)

(** X3: a click on the header of the active column flips the direction,
    so that two clicks restore the table's state; a click on another column
    selects it in ascending order, and a second click makes it descending.
    No click touches the devices, the filters or the loading flag. *)
Theorem handleSort_clicks (field : string) (st : DeviceTable.State) :
  (sortField st = field -> handleSort field (handleSort field st) = st) /\
  (sortField st <> field ->
   sortField (handleSort field st) = field /\
   sortDirection (handleSort field st) = asc /\
   sortDirection (handleSort field (handleSort field st)) = desc) /\
  devices (handleSort field st) = devices st /\
  stateFilter (handleSort field st) = stateFilter st /\
  nameFilter (handleSort field st) = nameFilter st /\
  DeviceTable.loading (handleSort field st) = DeviceTable.loading st.
Proof.
  split; [|split; [|repeat split]].
  - intros <-. destruct st as [ds l sf nf f dir]. unfold handleSort. simpl.
    rewrite String.eqb_refl. simpl. rewrite String.eqb_refl.
    destruct dir; reflexivity.
  - intros N. apply String.eqb_neq in N. unfold handleSort. rewrite N.
    simpl. rewrite String.eqb_refl. repeat split.
  - unfold handleSort. destruct (String.eqb _ _); reflexivity.
  - unfold handleSort. destruct (String.eqb _ _); reflexivity.
  - unfold handleSort. destruct (String.eqb _ _); reflexivity.
  - unfold handleSort. destruct (String.eqb _ _); reflexivity.
Qed.

(** X4: sorting loses and duplicates nothing: the sorted list is a
    rearrangement of the filtered one, and a loaded table has one row per
    filtered device, keyed by the device's id. *)
Theorem sortedDevices_rearranges
        (localeCompare : string -> string -> Z) (st : DeviceTable.State) :
  Permutation (sortedDevices localeCompare st) (filteredDevices st) /\
  (DeviceTable.loading st = false ->
   length (rowsOf (DeviceTable.render localeCompare st)) =
   length (filteredDevices st) /\
   Permutation (map key (rowsOf (DeviceTable.render localeCompare st)))
               (map id (filteredDevices st))).
Proof.
  split; [apply sortBy_perm|].
  intros L. unfold DeviceTable.render. rewrite L. simpl. split.
  - rewrite length_map. apply Permutation_length, sortBy_perm.
  - rewrite map_map. simpl. apply Permutation_map, sortBy_perm.
Qed.

Lemma insertSorted_sorted (cmp : DeviceData -> DeviceData -> Z)
      (x : DeviceData) (l : list DeviceData) :
  (forall a b, cmp a b <= 0 \/ cmp b a <= 0)%Z ->
  (forall a b c, cmp a b <= 0 -> cmp b c <= 0 -> cmp a c <= 0)%Z ->
  StronglySorted (fun a b => (cmp a b <= 0)%Z) l ->
  StronglySorted (fun a b => (cmp a b <= 0)%Z) (insertSorted cmp x l).
Proof.
  intros Total Trans. induction l as [|y r IH]; intros S; simpl.
  - constructor; constructor.
  - apply StronglySorted_inv in S. destruct S as [Sr Fy].
    destruct (Z.leb_spec (cmp x y) 0) as [Le|Gt].
    + constructor; [now constructor|].
      constructor; [exact Le|].
      eapply Forall_impl; [|exact Fy]. intros z Hz. now apply (Trans x y z).
    + constructor; [now apply IH|].
      eapply Permutation_Forall;
        [apply Permutation_sym, insertSorted_perm|].
      constructor; [|exact Fy].
      destruct (Total x y) as [H|H]; [lia | exact H].
Qed.

Lemma sortBy_sorted (cmp : DeviceData -> DeviceData -> Z)
      (l : list DeviceData) :
  (forall a b, cmp a b <= 0 \/ cmp b a <= 0)%Z ->
  (forall a b c, cmp a b <= 0 -> cmp b c <= 0 -> cmp a c <= 0)%Z ->
  StronglySorted (fun a b => (cmp a b <= 0)%Z) (sortBy cmp l).
Proof.
  intros Total Trans. induction l as [|x r IH]; simpl.
  - constructor.
  - now apply insertSorted_sorted.
Qed.

(** X5: when the host's comparison is total and transitive, the rows come
    in the order of the chosen column: along the sorted list the keys never
    go down in ascending direction and never go up in descending
    direction. *)
Theorem sortedDevices_in_order
        (localeCompare : string -> string -> Z) (st : DeviceTable.State) :
  (forall a b, localeCompare a b <= 0 \/ localeCompare b a <= 0)%Z ->
  (forall a b c, localeCompare a b <= 0 -> localeCompare b c <= 0 ->
                 localeCompare a c <= 0)%Z ->
  StronglySorted (inOrder localeCompare st) (sortedDevices localeCompare st).
Proof.
  intros Total Trans. unfold sortedDevices.
  assert (E : forall a b, inOrder localeCompare st a b <->
                          (compareDevices localeCompare st a b <= 0)%Z).
  { intros a b. unfold inOrder, compareDevices.
    destruct (sortDirection st); reflexivity. }
  assert (S : StronglySorted
                (fun a b => (compareDevices localeCompare st a b <= 0)%Z)
                (sortBy (compareDevices localeCompare st) (filteredDevices st))).
  { apply sortBy_sorted; unfold compareDevices;
      destruct (sortDirection st); intros; eauto. }
  induction S as [|a l _ IH F]; constructor; [exact IH|].
  eapply Forall_impl; [|exact F]. intros b. apply E.
Qed.

Lemma sortedDevices_in_order_witness :
  StronglySorted (inOrder Sample.byLength Sample.tableA)
                 (sortedDevices Sample.byLength Sample.tableA).
Proof.
  apply (sortedDevices_in_order Sample.byLength Sample.tableA);
    unfold Sample.byLength; intros; lia.
Defined.

Lemma insertSorted_filter (cmp : DeviceData -> DeviceData -> Z)
      (P : DeviceData -> bool) (x : DeviceData) (l : list DeviceData) :
  (forall a b, P a = true -> P b = true -> cmp a b <= 0)%Z ->
  filter P (insertSorted cmp x l) = filter P (x :: l).
Proof.
  intros Tie. induction l as [|y r IH]; [reflexivity|].
  cbn [insertSorted]. destruct (Z.leb_spec (cmp x y) 0) as [Le|Gt];
    [reflexivity|].
  cbn [filter] in *. rewrite IH.
  destruct (P x) eqn:Px, (P y) eqn:Py; try reflexivity.
  specialize (Tie x y Px Py). lia.
Qed.

(** X6: the sort is stable: the devices that share a sort key keep, among
    themselves, the order of the filtered list, in either direction, as soon
    as the host's comparison does not put a key after itself. *)
Theorem sortedDevices_stable
        (localeCompare : string -> string -> Z) (st : DeviceTable.State)
        (k : string) :
  (localeCompare k k <= 0)%Z ->
  filter (hasKey (sortField st) k) (sortedDevices localeCompare st) =
  filter (hasKey (sortField st) k) (filteredDevices st).
Proof.
  intros Refl. unfold sortedDevices.
  induction (filteredDevices st) as [|x r IH]; [reflexivity|].
  cbn [sortBy fold_right]. fold (sortBy (compareDevices localeCompare st) r).
  rewrite insertSorted_filter.
  - cbn [filter]. now rewrite IH.
  - intros a b Ha Hb. unfold hasKey in Ha, Hb.
    apply String.eqb_eq in Ha, Hb. unfold compareDevices.
    rewrite Ha, Hb. destruct (sortDirection st); exact Refl.
Qed.

Lemma sortedDevices_stable_witness :
  filter (hasKey "state" "found")
         (sortedDevices Sample.byLength
                        (Sample.table "" "" [Sample.steady; Sample.scenario;
                                             Sample.firstSeen])) =
  [Sample.steady; Sample.firstSeen].
Proof.
  exact (sortedDevices_stable Sample.byLength
           (Sample.table "" "" [Sample.steady; Sample.scenario;
                                Sample.firstSeen])
           "found" (Z.le_refl 0)).
Defined.

(** ** The life of the device table *)

Lemma table_step_loading (st : DeviceTable.State) (e : DeviceTable.Event) :
  DeviceTable.loading (DeviceTable.step st e) =
  DeviceTable.loading st && negb (isFetchOutcome e).
Proof.
  destruct e as [data| |text|text|c]; simpl;
    try (now rewrite ?andb_false_r, ?andb_true_r).
  unfold handleSort. destruct (String.eqb _ _); simpl; now rewrite andb_true_r.
Qed.

Lemma table_step_devices (st : DeviceTable.State) (e : DeviceTable.Event) :
  (forall data, e <> DeviceTable.Fetched data) ->
  devices (DeviceTable.step st e) = devices st.
Proof.
  intros N. destruct e as [data| |text|text|c]; simpl; try reflexivity.
  - now contradiction (N data).
  - unfold handleSort. destruct (String.eqb _ _); reflexivity.
Qed.

(** X7: the "Loading devices..." placeholder is one-way.  The table is
    loading exactly as long as it was loading at the start and no fetch has
    ended since; nothing sets the flag again, so a table that has loaded
    once keeps showing rows whatever happens next.  Events other than a
    successful fetch (a failed fetch included) leave the devices as they
    are. *)
Theorem table_loading_is_one_way
        (events : list DeviceTable.Event) (st : DeviceTable.State) :
  DeviceTable.loading (DeviceTable.run events st) =
  DeviceTable.loading st && forallb (fun e => negb (isFetchOutcome e)) events /\
  (DeviceTable.loading st = false ->
   forall localeCompare,
     DeviceTable.render localeCompare (DeviceTable.run events st) =
     TableView (map renderRow
                    (sortedDevices localeCompare (DeviceTable.run events st)))) /\
  ((forall data, ~ In (DeviceTable.Fetched data) events) ->
   devices (DeviceTable.run events st) = devices st).
Proof.
  assert (L : forall evs s,
             DeviceTable.loading (DeviceTable.run evs s) =
             DeviceTable.loading s &&
             forallb (fun e => negb (isFetchOutcome e)) evs).
  { induction evs as [|e r IH]; intros s; simpl.
    - now rewrite andb_true_r.
    - unfold DeviceTable.run in IH. rewrite IH, table_step_loading.
      now rewrite andb_assoc. }
  split; [apply L | split].
  - intros H cmp. unfold DeviceTable.render. now rewrite L, H.
  - revert st. induction events as [|e r IH]; intros st N; simpl.
    + reflexivity.
    + unfold DeviceTable.run in IH. rewrite IH.
      * apply table_step_devices. intros data ->. apply (N data). now left.
      * intros data H. apply (N data). now right.
Qed.

Lemma table_step_sortField (st : DeviceTable.State) (e : DeviceTable.Event) :
  sortField st = "state" \/ sortField st = "name" ->
  sortField (DeviceTable.step st e) = "state" \/
  sortField (DeviceTable.step st e) = "name".
Proof.
  intros H. destruct e as [data| |text|text|c]; simpl; try exact H.
  unfold handleSort. destruct (String.eqb _ _); simpl; [exact H|].
  destruct c; auto.
Qed.

(** X8: from the mounted table on, whatever is fetched, typed or clicked,
    the sort field is "state" or "name", so that exactly one of the two
    clickable headers carries a chevron; the chevron points up in ascending
    and down in descending direction. *)
Theorem one_sort_indicator (events : list DeviceTable.Event) :
  let st := DeviceTable.run events DeviceTable.initial in
  let arrow := match sortDirection st with
               | asc => ChevronUp
               | desc => ChevronDown
               end in
  (sortField st = "state" /\
   sortIndicator StateColumn st = arrow /\
   sortIndicator NameColumn st = NoIndicator) \/
  (sortField st = "name" /\
   sortIndicator NameColumn st = arrow /\
   sortIndicator StateColumn st = NoIndicator).
Proof.
  assert (I : forall evs s,
             sortField s = "state" \/ sortField s = "name" ->
             sortField (DeviceTable.run evs s) = "state" \/
             sortField (DeviceTable.run evs s) = "name").
  { induction evs as [|e r IH]; intros s H; simpl; [exact H|].
    apply IH, table_step_sortField, H. }
  intros st arrow. subst arrow.
  destruct (I events DeviceTable.initial (or_introl eq_refl)) as [H|H];
    fold st in H; [left | right]; unfold sortIndicator; rewrite H;
    repeat split.
Qed.

(** ** The cells of a row *)

Lemma diffCell_class (c p : option string) (shown : string)
      (q : option string) :
  className (diffCell c p shown q) = plainClass <-> getDiffStyle c p = noStyle.
Proof.
  unfold diffCell, getDiffStyle, plainClass. cbn [className].
  destruct (_ || _); cbn [backgroundColor noStyle JS.interpolate].
  - split; reflexivity.
  - split; [|discriminate].
    destruct (JS.strict_eq c (Some "found")); simpl; discriminate.
Qed.

(** X9: in the state and rssi cells the highlight and the hover text go
    together: the cell has no background colour exactly when it shows the
    bare current value, and otherwise its colour is green when the current
    value is "found" and red for every other value. *)
Theorem highlight_matches_hover (d : DeviceData) :
  let s := state (network_data (current d)) in
  let r := rssi (network_data (current d)) in
  (className (stateCell (renderRow d)) = plainClass <->
   body (stateCell (renderRow d)) = Plain s) /\
  (className (rssiCell (renderRow d)) = plainClass <->
   body (rssiCell (renderRow d)) = Plain r) /\
  (className (stateCell (renderRow d)) = plainClass \/
   className (stateCell (renderRow d)) = cellClass s) /\
  (className (rssiCell (renderRow d)) = plainClass \/
   className (rssiCell (renderRow d)) = cellClass r).
Proof.
  intros s r.
  assert (E : forall c p, getDiffStyle (Some c) p = noStyle <->
                          renderDiffValue c p = Plain c).
  { intros c p. rewrite getDiffStyle_plain, renderDiffValue_plain.
    split; intros [H|H]; auto. }
  assert (C : forall c p, className (diffCell (Some c) p c p) = plainClass \/
                          className (diffCell (Some c) p c p) = cellClass c).
  { intros c p. unfold diffCell, getDiffStyle, cellClass, plainClass.
    cbn [className]. destruct (_ || _); [now left | right]. reflexivity. }
  cbn [renderRow stateCell rssiCell]. repeat split.
  - intros H. apply diffCell_class in H. now apply E.
  - intros H. apply diffCell_class. now apply E.
  - intros H. apply diffCell_class in H. now apply E.
  - intros H. apply diffCell_class. now apply E.
  - apply C.
  - apply C.
Qed.

(** X10: a device whose current snapshot has no health data gets empty
    name and reason cells and a health cell that reads "undefined%"; when
    the previous rate is missing or empty as well, that cell is the plain,
    unhighlighted "undefined%". *)
Theorem row_without_health_data (d : DeviceData) :
  health_data (current d) = None ->
  nameCell (renderRow d) = None /\
  reasonText (renderRow d) = None /\
  shownText (body (healthCell (renderRow d))) = "undefined%" /\
  (JS.truthy (previousHealthRate d) = false ->
   healthCell (renderRow d) =
   {| className := plainClass; body := Plain "undefined%" |}).
Proof.
  intros H. cbn [renderRow nameCell reasonText healthCell].
  unfold healthRate. rewrite H. cbn [option_map JS.interpolate].
  repeat split.
  - unfold diffCell, renderDiffValue. cbn [body].
    destruct (_ || _); [reflexivity|]. destruct (JS.and_then _ _); reflexivity.
  - intros T. rewrite diffCell_plain; [reflexivity | now left |].
    left. unfold JS.and_then. now rewrite T.
Qed.

Lemma row_without_health_data_witness :
  nameCell (renderRow Sample.neverFound) = None /\
  reasonText (renderRow Sample.neverFound) = None /\
  shownText (body (healthCell (renderRow Sample.neverFound))) = "undefined%" /\
  (JS.truthy (previousHealthRate Sample.neverFound) = false ->
   healthCell (renderRow Sample.neverFound) =
   {| className := plainClass; body := Plain "undefined%" |}).
Proof.
  exact (row_without_health_data Sample.neverFound eq_refl).
Defined.

(** X11: the crash block is absent exactly when the list of crashes is
    missing or empty; otherwise it holds one card per crash, in the order of
    the list, each with the crash's process and timestamp. *)
Theorem crash_cards (crashes : option (list Crash.t)) :
  (CrashDetails.render crashes = None <->
   crashes = None \/ crashes = Some []) /\
  (forall cards, CrashDetails.render crashes = Some cards ->
                 exists l, crashes = Some l /\
                           length cards = length l /\
                           map CrashDetails.processLine cards =
                           map Crash.process l /\
                           map CrashDetails.timeLine cards =
                           map Crash.timestamp l).
Proof.
  split.
  - destruct crashes as [[|c l]|]; simpl; split; auto; try discriminate.
    intros [H|H]; discriminate H.
  - intros cards. destruct crashes as [[|c l]|]; simpl; try discriminate.
    intros [= <-]. exists (c :: l). simpl.
    rewrite length_map, !map_map. simpl. repeat split.
Qed.

(** ** The uploader *)

(** X12: of the files of one event, as the drop zone reads them, the
    uploader posts the first one that the accept filter lets through and
    ignores every later one, accepted or not; when the filter lets none
    through, nothing is posted.  A [Thumbs.db] or [.DS_Store] of a drop is
    never the file posted. *)
Theorem submitted_is_first_accepted
        (mimeOf : string -> option string) (origin : Origin)
        (files : list File) :
  match submitted mimeOf origin files with
  | Some file =>
      (exists pre post,
          selectedFiles mimeOf origin files = (pre ++ file :: post)%list /\
          forallb (fun f => negb (fileAccepted f)) pre = true /\
          fileAccepted file = true) /\
      (origin = Dropped -> ignored file = false)
  | None =>
      forallb (fun f => negb (fileAccepted f))
              (selectedFiles mimeOf origin files) = true
  end.
Proof.
  pose proof (submitted_first mimeOf origin files) as F.
  destruct (submitted mimeOf origin files) as [file|]; [|exact F].
  split; [exact F|]. intros ->.
  destruct F as [pre [post [E _]]].
  assert (Hin : In file (selectedFiles mimeOf Dropped files))
    by (rewrite E; apply in_or_app; right; now left).
  unfold selectedFiles in Hin. apply filter_In in Hin.
  now apply negb_true_iff.
Qed.

Lemma submitted_single (mimeOf : string -> option string) (origin : Origin)
      (raw : File) :
  submitted mimeOf origin [raw] =
  if match origin with Dropped => negb (ignored raw) | Picked => true end &&
     fileAccepted (withMimeType mimeOf raw)
  then Some (withMimeType mimeOf raw) else None.
Proof.
  unfold submitted, acceptedFiles, selectedFiles. destruct origin; simpl.
  - unfold ignored at 1.
    rewrite (proj1 (withMimeType_spec mimeOf raw)). fold (ignored raw).
    destruct (ignored raw); simpl; [reflexivity|].
    destruct (fileAccepted _); reflexivity.
  - destruct (fileAccepted _); reflexivity.
Qed.

(** X13: a file offered alone is posted exactly when it is not a system
    file discarded from a drop and, its type being the declared one or,
    when none is declared, the one the drop zone's table gives for its
    extension, that type is [application/gzip] in any letter case, or the
    name ends in [.tgz] in any letter case, or the type is
    [application/x-moz-file].  A declared type is never replaced. *)
Theorem lone_file_posted_iff
        (mimeOf : string -> option string) (origin : Origin) (raw : File) :
  let file := withMimeType mimeOf raw in
  (submitted mimeOf origin [raw] = Some file <->
   (origin = Dropped -> ignored raw = false) /\
   (type file = "application/x-moz-file" \/
    JS.toLowerCase (type file) = "application/gzip" \/
    JS.endsWith (JS.toLowerCase (name raw)) ".tgz" = true)) /\
  (submitted mimeOf origin [raw] = Some file \/
   submitted mimeOf origin [raw] = None) /\
  name file = name raw /\
  (type raw <> "" -> file = raw) /\
  (type raw = "" ->
   type file = "" \/
   mimeOf (JS.toLowerCase (lastSegment (name raw))) = Some (type file)).
Proof.
  intros file. subst file.
  destruct (withMimeType_spec mimeOf raw) as [Hn [Hk Ht]].
  rewrite submitted_single.
  split; [|split; [|split; [exact Hn | split; [exact Hk|]]]].
  - pose proof (fileAccepted_spec (withMimeType mimeOf raw)) as A.
    rewrite Hn in A. rewrite <- A.
    destruct origin; simpl.
    + destruct (ignored raw); simpl.
      * split; [discriminate|]. intros [H _]. now specialize (H eq_refl).
      * destruct (fileAccepted _); split; auto; try discriminate.
        intros [_ H]. discriminate H.
    + destruct (fileAccepted _); split; auto; try discriminate.
      * intros _. split; [discriminate | reflexivity].
      * intros [_ H]. discriminate H.
  - destruct (_ && _); auto.
  - intros E. destruct Ht as [Ht|[_ Ht]]; [left; congruence | now right].
Qed.

(** The drop zone on three events: a file without a type gets the type of
    its extension and passes; a [Thumbs.db] is dropped out of a drop, and
    stays when it comes from the picker. *)
Lemma drop_zone_examples :
  submitted Sample.mimeTable Dropped [Sample.untypedGz] =
  Some {| name := "notes.gz"; type := "application/gzip" |} /\
  submitted Sample.mimeTable Dropped [Sample.thumbs; Sample.renamedTgz] =
  Some Sample.renamedTgz /\
  submitted Sample.mimeTable Picked [Sample.thumbs; Sample.renamedTgz] =
  Some Sample.thumbs.
Proof. repeat split. Qed.

Lemma afterUpload_followUp (upload : UploadReply) (listing : ProjectsReply) :
  forallb isFollowUp (afterUpload upload listing) = true.
Proof.
  destruct upload as [| | | |pn]; try reflexivity.
  - destruct listing as [|[|p ps]]; reflexivity.
  - destruct listing as [|ps]; [reflexivity|]. simpl.
    destruct (findProject pn ps); reflexivity.
Qed.

(** X14: a drop without an accepted file has no effect at all.  Otherwise
    the uploader raises its flag, posts the first accepted file once, and
    lowers the flag at the very end, however the two requests turn out;
    in between it only fetches the project list, calls back or alerts. *)
Theorem uploading_flag_is_bracketed
        (accepted : list File) (upload : UploadReply)
        (listing : ProjectsReply) :
  match accepted with
  | [] => onDropEffects accepted upload listing = []
  | file :: _ =>
      exists middle,
        onDropEffects accepted upload listing =
        (SetUploading true :: PostUpload file :: middle ++ [SetUploading false])%list /\
        forallb isFollowUp middle = true
  end.
Proof.
  destruct accepted as [|file rest]; [reflexivity|].
  exists (afterUpload upload listing). split; [reflexivity|].
  apply afterUpload_followUp.
Qed.

Lemma find_first {A : Type} (f : A -> bool) (l : list A) (x : A) :
  find f l = Some x ->
  exists pre post, l = (pre ++ x :: post)%list /\ f x = true /\
                   forall y, In y pre -> f y = false.
Proof.
  induction l as [|a l IH]; simpl; [discriminate|].
  destruct (f a) eqn:E.
  - intros [= ->]. exists [], l. repeat split; [exact E|]. intros y [].
  - intros H. destruct (IH H) as [pre [post [-> [Hx Hp]]]].
    exists (a :: pre), post. repeat split; [exact Hx|].
    intros y [<-|Hy]; [exact E | now apply Hp].
Qed.

(** X15: what follows the POST.  The uploader alerts exactly when the
    upload fails, is refused or answers something that is not JSON, when
    the project list cannot be fetched, or when the answer is [null] and
    the fetched list is not empty.  It fetches the project list exactly
    after an answer that is JSON.  It calls back only after an answer with
    a [project_name] and a fetched list, with the id and name of the first
    project of the list that has this name, and then does not alert.  When
    no project has that name, or the answer is [null] and the list is
    empty, it fetches the list and does nothing else. *)
Theorem upload_outcome (upload : UploadReply) (listing : ProjectsReply) :
  (In (Alert "Error uploading file") (afterUpload upload listing) <->
   upload = UploadFailed \/ upload = UploadNotOk \/
   upload = UploadMalformed \/ listing = ProjectsFailed \/
   (upload = UploadNull /\
    exists p ps, listing = ProjectsList (p :: ps))) /\
  (forall m, In (Alert m) (afterUpload upload listing) ->
             m = "Error uploading file") /\
  (In GetProjects (afterUpload upload listing) <->
   upload = UploadNull \/ exists pn, upload = UploadResult pn) /\
  (forall projectId projectName,
      In (OnUploadSuccess projectId projectName) (afterUpload upload listing) ->
      ~ In (Alert "Error uploading file") (afterUpload upload listing) /\
      upload = UploadResult (Some projectName) /\
      exists pre p post,
        listing = ProjectsList (pre ++ p :: post)%list /\
        Project.id p = projectId /\ Project.name p = projectName /\
        forall q, In q pre -> Project.name q <> projectName) /\
  (forall pn projects,
      upload = UploadResult pn -> listing = ProjectsList projects ->
      findProject pn projects = None ->
      afterUpload upload listing = [GetProjects]) /\
  (upload = UploadNull -> listing = ProjectsList [] ->
   afterUpload upload listing = [GetProjects]).
Proof.
  split; [|split; [|split; [|split; [|split]]]].
  - destruct upload as [| | | |pn]; simpl.
    1-3: split; [intros _; auto | auto].
    + destruct listing as [|[|p ps]]; simpl.
      * split; auto.
      * split; [intros [H|[]]; discriminate H|].
        intros [H|[H|[H|[H|[_ [p [ps H]]]]]]]; discriminate H.
      * split; [|auto]. intros _. do 4 right. split; [reflexivity|].
        now exists p, ps.
    + destruct listing as [|ps]; simpl.
      * split; auto.
      * split.
        -- intros [H|H]; [discriminate H|].
           destruct (findProject pn ps); simpl in H;
             [destruct H as [H|[]]; discriminate H | destruct H].
        -- intros [H|[H|[H|[H|[H _]]]]]; discriminate H.
  - intros m. destruct upload as [| | | |pn]; simpl.
    1-3: intros [[= <-]|[]]; reflexivity.
    + destruct listing as [|[|p ps]]; simpl.
      * intros [H|[[= <-]|[]]]; [discriminate H | reflexivity].
      * intros [H|[]]; discriminate H.
      * intros [H|[[= <-]|[]]]; [discriminate H | reflexivity].
    + destruct listing as [|ps]; simpl.
      * intros [H|[[= <-]|[]]]; [discriminate H | reflexivity].
      * intros [H|H]; [discriminate H|].
        destruct (findProject pn ps); simpl in H;
          [destruct H as [H|[]]; discriminate H | destruct H].
  - destruct upload as [| | | |pn]; simpl.
    1-3: split; [intros [H|[]]; discriminate H |
                 intros [H|[pn H]]; discriminate H].
    + split; auto.
    + split; [|auto]. intros _. right. now exists pn.
  - intros pid pname. destruct upload as [| | | |pn]; simpl.
    1-3: intros [H|[]]; discriminate H.
    + destruct listing as [|[|p ps]]; simpl.
      * intros [H|[H|[]]]; discriminate H.
      * intros [H|[]]; discriminate H.
      * intros [H|[H|[]]]; discriminate H.
    + destruct listing as [|ps]; simpl.
      * intros [H|[H|[]]]; discriminate H.
      * intros [H|H]; [discriminate H|].
        destruct (findProject pn ps) as [p|] eqn:F; simpl in H; [|destruct H].
        destruct H as [[= <- <-]|[]].
        destruct (find_first _ _ _ F) as [pre [post [-> [Hp Hpre]]]].
        apply strict_eq_spec in Hp. subst pn.
        split; [|split; [reflexivity|]].
        -- intros [H|[H|[]]]; discriminate H.
        -- exists pre, p, post. repeat split.
           intros q Hq E. specialize (Hpre q Hq). simpl in Hpre.
           rewrite E, String.eqb_refl in Hpre. discriminate Hpre.
  - intros pn ps -> -> F. simpl. now rewrite F.
  - intros -> ->. reflexivity.
Qed.

(** ** The page *)

Lemma home_step_refresh (st : Home.State) (e : Home.Event) :
  Home.refreshTrigger (Home.step st e) =
  (Home.refreshTrigger st + (if isUpload e then 1 else 0))%Z.
Proof.
  destruct e as [o|p n|]; simpl; try lia.
  unfold autoSelect. destruct (JS.truthyNumber _); simpl; lia.
Qed.

(** X16: the refresh trigger counts the successful uploads: after any
    events it has grown by the number of uploads among them, and choosing
    projects never moves it. *)
Theorem refresh_counts_uploads (events : list Home.Event) (st : Home.State) :
  Home.refreshTrigger (Home.run events st) =
  (Home.refreshTrigger st + Z.of_nat (length (filter isUpload events)))%Z.
Proof.
  revert st. induction events as [|e r IH]; intros st.
  - simpl. lia.
  - change (Home.run (e :: r) st) with (Home.run r (Home.step st e)).
    rewrite IH, home_step_refresh. cbn [filter].
    destruct (isUpload e); cbn [length]; lia.
Qed.

Lemma autoSelect_id (st : Home.State) : Home.autoSelect st = st.
Proof.
  unfold autoSelect. destruct (JS.truthyNumber _); [|reflexivity].
  destruct st; reflexivity.
Qed.

(** X17: the selector's auto-select effect changes nothing on the page: it
    hands the page the project the page already has, so that a history of
    events leads to the same state with or without its auto-selects. *)
Theorem autoSelect_changes_nothing
        (events : list Home.Event) (st : Home.State) :
  Home.step st AutoSelect = st /\
  Home.run events st =
  Home.run (filter (fun e => negb (isAutoSelect e)) events) st.
Proof.
  split; [apply autoSelect_id|].
  revert st. induction events as [|e r IH]; intros st; [reflexivity|].
  change (Home.run (e :: r) st) with (Home.run r (Home.step st e)).
  cbn [filter]. destruct e as [o|p n|]; cbn [isAutoSelect negb].
  - apply IH.
  - apply IH.
  - cbn [Home.step]. rewrite autoSelect_id. apply IH.
Qed.

(** X18: choosing a project in the selector mounts the device table for
    that project, without a capture, whatever was shown before; choosing
    the placeholder, or a project whose id is 0, shows no table. *)
Theorem selector_choice_mounts_table (st : Home.State) (o : SelectOption) :
  deviceQuery (onChange o st) =
  match o with
  | Placeholder => None
  | ProjectOption n =>
      if (n =? 0)%Z then None
      else Some {| queryProject := n; queryCapture := None |}
  end.
Proof.
  destruct o as [|n]; [reflexivity|].
  unfold deviceQuery, onChange. simpl. destruct (n =? 0)%Z; reflexivity.
Qed.

Lemma afterDrop_unfold (mimeOf : string -> option string) (origin : Origin)
      (files : list File) (upload : UploadReply)
      (listing : ProjectsReply) (st : Home.State) :
  Page.afterDrop mimeOf origin files upload listing st =
  match submitted mimeOf origin files with
  | Some _ => fold_left Page.applyEffect (afterUpload upload listing) st
  | None => st
  end.
Proof.
  unfold Page.afterDrop, submitted, onDrop, onDropEffects.
  destruct (acceptedFiles mimeOf origin files) as [|file rest];
    [reflexivity|].
  cbn [fold_left Page.applyEffect]. rewrite fold_left_app. reflexivity.
Qed.

Lemma sameProps_spec (a b : option (Z * option Z)) :
  Page.sameProps a b = true <-> a = b.
Proof.
  split.
  - destruct a as [[p c]|], b as [[q d]|]; simpl; try discriminate;
      [|reflexivity].
    intros H. apply andb_true_iff in H. destruct H as [H1 H2].
    apply Z.eqb_eq in H1. subst q.
    destruct c as [x|], d as [y|]; simpl in H2; try discriminate;
      [|reflexivity].
    apply Z.eqb_eq in H2. now subst y.
  - intros <-. destruct a as [[p [c|]]|]; simpl;
      rewrite ?Z.eqb_refl; reflexivity.
Qed.

(** X19: from the files to the table.  When a file of the event is posted,
    the upload answers with a project name and the fetched list has a
    project of that name with a non-zero id, the page selects that project,
    drops the capture and bumps the refresh trigger by one.  The device
    table then requests the devices of that project, with no capture
    parameter, unless it was already showing that project without a
    capture: then its props are unchanged and it requests nothing. *)
Theorem accepted_upload_opens_project
        (mimeOf : string -> option string) (origin : Origin)
        (files : list File) (file : File) (projectName : string)
        (projects : list Project.t) (p : Project.t) (st : Home.State) :
  submitted mimeOf origin files = Some file ->
  findProject (Some projectName) projects = Some p ->
  Project.id p <> 0%Z ->
  let st' := Page.afterDrop mimeOf origin files
                            (UploadResult (Some projectName))
                            (ProjectsList projects) st in
  selectedProject st' = Some (Project.id p) /\
  selectedCapture st' = None /\
  Home.refreshTrigger st' = (Home.refreshTrigger st + 1)%Z /\
  Page.tableProps st' = Some (Project.id p, None) /\
  (Page.tableProps st <> Some (Project.id p, None) ->
   Page.requestAfter st st' =
   Some ("http://localhost:8000/project/" ++
         JS.numberToString (Project.id p) ++ "/devices")) /\
  (Page.tableProps st = Some (Project.id p, None) ->
   Page.requestAfter st st' = None).
Proof.
  intros Hs Hf Hid st'. subst st'.
  rewrite afterDrop_unfold, Hs. cbn [afterUpload]. rewrite Hf.
  cbn [fold_left Page.applyEffect].
  assert (T : Page.tableProps
                (handleUploadSuccess (Project.id p) (Project.name p) st) =
              Some (Project.id p, None)).
  { unfold Page.tableProps, handleUploadSuccess. cbn.
    apply Z.eqb_neq in Hid. now rewrite Hid. }
  split; [reflexivity | split; [reflexivity | split; [reflexivity|]]].
  split; [exact T | split].
  - intros N. unfold Page.requestAfter. rewrite T.
    destruct (Page.sameProps _ _) eqn:E; [|reflexivity].
    apply sameProps_spec in E. contradiction.
  - intros E. unfold Page.requestAfter. rewrite T, E.
    now rewrite (proj2 (sameProps_spec _ _) eq_refl).
Qed.

Lemma accepted_upload_opens_project_witness :
  Page.requestAfter
    Home.initial
    (Page.afterDrop Sample.mimeTable Dropped
                    [Sample.plainText; Sample.untypedGz]
                    (UploadResult (Some "site-b"))
                    (ProjectsList [Sample.siteA; Sample.siteB; Sample.siteB'])
                    Home.initial) =
  Some "http://localhost:8000/project/9/devices".
Proof.
  destruct (accepted_upload_opens_project
              Sample.mimeTable Dropped [Sample.plainText; Sample.untypedGz]
              {| name := "notes.gz"; type := "application/gzip" |} "site-b"
              [Sample.siteA; Sample.siteB; Sample.siteB'] Sample.siteB
              Home.initial eq_refl eq_refl)
    as [_ [_ [_ [_ [H _]]]]]; [discriminate|].
  apply H. discriminate.
Defined.

(** X20: files that do not end in a callback leave the page as it was: no
    file let through by the drop zone, an upload that fails, is refused or
    answers no JSON or [null], a project list that cannot be fetched, or no
    project of the answered name. *)
Theorem failed_upload_leaves_page
        (mimeOf : string -> option string) (origin : Origin)
        (files : list File) (upload : UploadReply)
        (listing : ProjectsReply) (st : Home.State) :
  submitted mimeOf origin files = None \/
  (forall pn, upload <> UploadResult pn) \/
  listing = ProjectsFailed \/
  (exists pn projects, upload = UploadResult pn /\
                       listing = ProjectsList projects /\
                       findProject pn projects = None) ->
  Page.afterDrop mimeOf origin files upload listing st = st /\
  Page.requestAfter st (Page.afterDrop mimeOf origin files upload listing st)
  = None.
Proof.
  intros H.
  assert (E : Page.afterDrop mimeOf origin files upload listing st = st).
  { rewrite afterDrop_unfold.
    destruct (submitted mimeOf origin files) as [file|]; [|reflexivity].
    destruct H as [H|[H|[H|[pn [ps [-> [-> F]]]]]]].
    - discriminate H.
    - destruct upload as [| | | |pn]; try reflexivity.
      + destruct listing as [|[|q qs]]; reflexivity.
      + now contradiction (H pn).
    - subst listing. destruct upload; reflexivity.
    - cbn [afterUpload]. rewrite F. reflexivity. }
  split; [exact E|]. rewrite E. unfold Page.requestAfter.
  destruct (Page.tableProps st) as [[q c]|]; [|reflexivity].
  now rewrite (proj2 (sameProps_spec _ _) eq_refl).
Qed.

Lemma failed_upload_leaves_page_witness :
  Page.afterDrop Sample.mimeTable Dropped [Sample.gzipTarGz] UploadNull
                 (ProjectsList [Sample.siteA]) Home.initial = Home.initial /\
  Page.requestAfter
    Home.initial
    (Page.afterDrop Sample.mimeTable Dropped [Sample.gzipTarGz] UploadNull
                    (ProjectsList [Sample.siteA]) Home.initial) = None.
Proof.
  apply (failed_upload_leaves_page Sample.mimeTable Dropped
           [Sample.gzipTarGz] UploadNull
           (ProjectsList [Sample.siteA]) Home.initial).
  right. left. discriminate.
Defined.

(** X21: the address of the device request carries a [capture_id]
    parameter only for a capture that is neither missing nor 0; and since
    the page never selects a capture, every request it makes from its first
    rendering on is for [/project/<id>/devices] alone. *)
Theorem page_never_requests_a_capture
        (events : list Home.Event) (projectId : Z) :
  devicesUrl projectId None =
  "http://localhost:8000/project/" ++ JS.numberToString projectId ++ "/devices" /\
  devicesUrl projectId (Some 0%Z) = devicesUrl projectId None /\
  (forall c, c <> 0%Z ->
             devicesUrl projectId (Some c) =
             "http://localhost:8000/project/" ++ JS.numberToString projectId ++
             "/devices" ++ "?capture_id=" ++ JS.numberToString c) /\
  Page.requestedUrl (Home.run events Home.initial) =
  match selectedProject (Home.run events Home.initial) with
  | Some p => if (p =? 0)%Z then None else Some (devicesUrl p None)
  | None => None
  end.
Proof.
  split; [reflexivity | split; [reflexivity | split]].
  - intros c Hc. unfold devicesUrl. simpl. apply Z.eqb_neq in Hc.
    now rewrite Hc.
  - unfold Page.requestedUrl, deviceQuery.
    rewrite (run_keeps_no_capture events Home.initial eq_refl).
    destruct (selectedProject _) as [p|]; [|reflexivity].
    simpl. destruct (p =? 0)%Z; reflexivity.
Qed.

(** ** The project selector *)

Lemma selector_run_loaded (events : list ProjectSelector.Event)
      (st : ProjectSelector.State) :
  ProjectSelector.loading st = false ->
  ProjectSelector.loading (ProjectSelector.run events st) = false.
Proof.
  revert st. induction events as [|e r IH]; intros st H; [exact H|].
  apply IH. destruct e; reflexivity.
Qed.

(** X22: the selector shows "Loading projects..." until its first fetch
    ends, well or badly, and never again, not even while a refresh is under
    way.  A failed fetch keeps the list of the last successful one, so after
    a fetched list and any number of failures the options are the projects
    of that list, in its order; the value shown is the placeholder when no
    project, or the project 0, is selected. *)
Theorem selector_view
        (events : list ProjectSelector.Event) (data : list Project.t)
        (failures : nat) (selected : option Z) :
  (ProjectSelector.render selected
     (ProjectSelector.run events ProjectSelector.initial) =
   ProjectSelector.LoadingView <-> events = []) /\
  ProjectSelector.render selected
    (ProjectSelector.run
       (events ++ ProjectSelector.Fetched data ::
               repeat ProjectSelector.FetchFailed failures)%list
       ProjectSelector.initial) =
  ProjectSelector.SelectView
    (match selected with
     | Some n => if (n =? 0)%Z then None else Some n
     | None => None
     end)
    (map (fun p => (Project.id p, Project.name p)) data).
Proof.
  split.
  - destruct events as [|e r]; [split; reflexivity|].
    split; [|discriminate].
    unfold ProjectSelector.render.
    change (ProjectSelector.run (e :: r) ProjectSelector.initial)
      with (ProjectSelector.run r
              (ProjectSelector.step ProjectSelector.initial e)).
    rewrite selector_run_loaded; [discriminate | destruct e; reflexivity].
  - unfold ProjectSelector.run. rewrite fold_left_app. cbn [fold_left].
    set (st := ProjectSelector.step _ (ProjectSelector.Fetched data)).
    assert (K : forall n s, ProjectSelector.loading s = false ->
                  ProjectSelector.projects s = data ->
                  ProjectSelector.render selected
                    (fold_left ProjectSelector.step
                       (repeat ProjectSelector.FetchFailed n) s) =
                  ProjectSelector.SelectView
                    (match selected with
                     | Some m => if (m =? 0)%Z then None else Some m
                     | None => None
                     end)
                    (map (fun p => (Project.id p, Project.name p)) data)).
    { induction n as [|n IH]; intros s L P; simpl.
      - unfold ProjectSelector.render. rewrite L, P.
        destruct selected as [m|]; [|reflexivity].
        simpl. destruct (m =? 0)%Z; reflexivity.
      - apply IH; [reflexivity | exact P]. }
    apply K; reflexivity.
Qed.
